(** * Dataset Cleaner: issue detection and per-column cleaning

    A shallow embedding of [cleaner.py].  A pandas [DataFrame] is an index
    together with named columns; a column is either of a numeric dtype or of
    dtype [object].  A missing entry (NaN / None) is [None].  Numbers are
    exact rationals, so rounding of binary floating point and the infinities
    are outside the model.  The Streamlit widgets are inputs: what
    [st.multiselect], [st.radio] and [st.selectbox] return is passed in as a
    record of choices. *)

From Stdlib Require Import String Ascii Bool Arith Lia ZArith List.
From Stdlib Require Import QArith Qround Lqa DecimalString Sorted.
Import ListNotations.

Local Open Scope string_scope.
Local Open Scope list_scope.
Local Open Scope nat_scope.

(** ** Exceptions and results *)

Inductive exn : Type :=
| KeyError
| TypeError
| ValueError
| UnicodeDecodeError
| ParserError
| EmptyDataError.

Inductive result (A : Type) : Type :=
| Ok (a : A)
| Raise (e : exn).

Arguments Ok {A} a.
Arguments Raise {A} e.

Definition bind {A B : Type} (r : result A) (k : A -> result B) : result B :=
  match r with
  | Ok a => k a
  | Raise e => Raise e
  end.

Notation "x <- r ;; k" := (bind r (fun x => k))
  (at level 61, r at next level, right associativity).

(** ** Cells with NaN *)

Definition Qlt_bool (a b : Q) : bool := negb (Qle_bool b a).

(** Arithmetic on scalars that may be NaN: NaN propagates. *)
Definition nan_lift2 (f : Q -> Q -> Q) (a b : option Q) : option Q :=
  match a, b with
  | Some x, Some y => Some (Qred (f x y))
  | _, _ => None
  end.

(** A comparison with NaN on either side is False. *)
Definition nan_cmp (f : Q -> Q -> bool) (a b : option Q) : bool :=
  match a, b with
  | Some x, Some y => f x y
  | _, _ => false
  end.

(** Equality of cells as [duplicated] sees it: two missing entries are the
    same key. *)
Definition cell_eqb {A : Type} (eqb : A -> A -> bool) (a b : option A) : bool :=
  match a, b with
  | Some x, Some y => eqb x y
  | None, None => true
  | _, _ => false
  end.

(** ** Operations on the values of one column *)

Section Cells.
Context {A : Type}.

Definition isna (xs : list (option A)) : list bool :=
  map (fun x => match x with None => true | Some _ => false end) xs.

Definition notna (xs : list (option A)) : list bool :=
  map negb (isna xs).

(** The values that are present, in row order ([skipna]). *)
Fixpoint dropna_values (xs : list (option A)) : list A :=
  match xs with
  | [] => []
  | Some v :: r => v :: dropna_values r
  | None :: r => dropna_values r
  end.

(** [fillna(value)]: a NaN [value] fills nothing. *)
Definition fillna (value : option A) (xs : list (option A)) : list (option A) :=
  map (fun x => match x with None => value | Some v => Some v end) xs.

(** Boolean indexing: the rows whose mask entry is True. *)
Fixpoint mask_filter {B : Type} (m : list bool) (xs : list B) : list B :=
  match m, xs with
  | b :: m', x :: xs' =>
      if b then x :: mask_filter m' xs' else mask_filter m' xs'
  | _, _ => []
  end.

Variable eqb : A -> A -> bool.

(** [duplicated]: a row is a duplicate when an earlier row holds the same
    key; [seen] are the keys of the rows before. *)
Fixpoint duplicated_from (seen xs : list (option A)) : list bool :=
  match xs with
  | [] => []
  | x :: r => existsb (cell_eqb eqb x) seen :: duplicated_from (x :: seen) r
  end.

Definition duplicated (xs : list (option A)) : list bool :=
  duplicated_from [] xs.

(** The rows that [drop_duplicates] keeps. *)
Definition keep_first (seen xs : list (option A)) : list (option A) :=
  mask_filter (map negb (duplicated_from seen xs)) xs.
End Cells.

(** [.sum()] of a boolean column. *)
Definition sum_true (m : list bool) : nat := length (filter (fun b => b) m).

(** *** Order statistics *)

Fixpoint insert_sorted (x : Q) (s : list Q) : list Q :=
  match s with
  | [] => [x]
  | y :: r => if Qle_bool x y then x :: y :: r else y :: insert_sorted x r
  end.

Fixpoint sort_values (xs : list Q) : list Q :=
  match xs with
  | [] => []
  | x :: r => insert_sorted x (sort_values r)
  end.

(** Linear interpolation at the fractional position [pos] of a sorted list. *)
Definition interpolate (s : list Q) (pos : Q) : option Q :=
  match s with
  | [] => None
  | x0 :: _ =>
      let i := Z.to_nat (Qfloor pos) in
      let g := (pos - inject_Z (Qfloor pos))%Q in
      let a := nth i s x0 in
      let b := nth (S i) s a in
      Some (Qred (a + (b - a) * g))
  end.

(** [Series.quantile(q)]: missing entries are skipped, the position is
    [q * (n - 1)], and an empty column gives NaN. *)
Definition quantile (xs : list (option Q)) (q : Q) : option Q :=
  let s := sort_values (dropna_values xs) in
  interpolate s (q * inject_Z (Z.of_nat (length s - 1)))%Q.

Definition Qsum (xs : list Q) : Q := fold_right Qplus 0%Q xs.

(** [Series.mean()]. *)
Definition mean (xs : list (option Q)) : option Q :=
  match dropna_values xs with
  | [] => None
  | v :: r => Some (Qred (Qsum (v :: r) / inject_Z (Z.of_nat (length (v :: r)))))
  end.

(** [Series.median()]. *)
Definition median (xs : list (option Q)) : option Q :=
  let s := sort_values (dropna_values xs) in
  match s with
  | [] => None
  | x0 :: _ =>
      let n := length s in
      if Nat.even n
      then Some (Qred ((nth (n / 2 - 1) s x0 + nth (n / 2) s x0) / 2))
      else Some (nth (n / 2) s x0)
  end.

Definition count_value (v : Q) (s : list Q) : nat :=
  length (filter (Qeq_bool v) s).

Definition max_count (s : list Q) : nat :=
  fold_right (fun v m => Nat.max (count_value v s) m) 0 s.

(** Each value once, in the order of first occurrence. *)
Fixpoint distinct (s : list Q) : list Q :=
  match s with
  | [] => []
  | v :: r => v :: filter (fun w => negb (Qeq_bool v w)) (distinct r)
  end.

(** [Series.mode()]: the most frequent values in ascending order, each
    once; no value at all when every entry is missing. *)
Definition mode (xs : list (option Q)) : list Q :=
  let s := sort_values (dropna_values xs) in
  distinct (filter (fun v => count_value v s =? max_count s) s).

(** [s[0]] on the result of [mode()]. *)
Definition getitem0 (s : list Q) : result Q :=
  match s with
  | [] => Raise KeyError
  | v :: _ => Ok v
  end.

(** [Series.clip(lower, upper)]: a NaN bound is no bound, a missing entry
    stays missing. *)
Definition clip_value (lower upper : option Q) (v : Q) : Q :=
  let v1 := match lower with
            | Some l => if Qle_bool l v then v else l
            | None => v
            end in
  match upper with
  | Some u => if Qle_bool v u then v1 else u
  | None => v1
  end.

Definition clip (lower upper : option Q) (xs : list (option Q)) : list (option Q) :=
  map (option_map (clip_value lower upper)) xs.

(** Comparison of a column with a scalar, row by row. *)
Definition series_lt (xs : list (option Q)) (b : option Q) : list bool :=
  map (fun x => nan_cmp Qlt_bool x b) xs.

Definition series_gt (xs : list (option Q)) (b : option Q) : list bool :=
  map (fun x => nan_cmp Qlt_bool b x) xs.

Definition series_le (xs : list (option Q)) (b : option Q) : list bool :=
  map (fun x => nan_cmp Qle_bool x b) xs.

Definition series_ge (xs : list (option Q)) (b : option Q) : list bool :=
  map (fun x => nan_cmp Qle_bool b x) xs.

Fixpoint mask_or (a b : list bool) : list bool :=
  match a, b with
  | x :: a', y :: b' => (x || y) :: mask_or a' b'
  | _, _ => []
  end.

Fixpoint mask_and (a b : list bool) : list bool :=
  match a, b with
  | x :: a', y :: b' => (x && y) :: mask_and a' b'
  | _, _ => []
  end.

(** ** Tables *)

Inductive dtype : Type :=
| numeric
| object.

Inductive Series : Type :=
| NumSeries (xs : list (option Q))
| ObjSeries (xs : list (option string)).

Definition dtype_of (s : Series) : dtype :=
  match s with
  | NumSeries _ => numeric
  | ObjSeries _ => object
  end.

Definition is_numeric_dtype (d : dtype) : bool :=
  match d with numeric => true | object => false end.

Definition is_object_dtype (d : dtype) : bool :=
  match d with object => true | numeric => false end.

Definition series_len (s : Series) : nat :=
  match s with
  | NumSeries xs => length xs
  | ObjSeries xs => length xs
  end.

Definition series_isna (s : Series) : list bool :=
  match s with
  | NumSeries xs => isna xs
  | ObjSeries xs => isna xs
  end.

Definition series_duplicated (s : Series) : list bool :=
  match s with
  | NumSeries xs => duplicated Qeq_bool xs
  | ObjSeries xs => duplicated String.eqb xs
  end.

Definition series_filter (m : list bool) (s : Series) : Series :=
  match s with
  | NumSeries xs => NumSeries (mask_filter m xs)
  | ObjSeries xs => ObjSeries (mask_filter m xs)
  end.

Record DataFrame : Type := {
  index : list nat;
  columns : list (string * Series)
}.

(** [df.shape[0]]. *)
Definition shape0 (df : DataFrame) : nat := length (index df).

(** Every column has one entry per row of the index. *)
Definition well_formed (df : DataFrame) : bool :=
  forallb (fun c => series_len (snd c) =? shape0 df) (columns df).

Fixpoint get_column (cols : list (string * Series)) (name : string) : option Series :=
  match cols with
  | [] => None
  | (n, s) :: r => if String.eqb n name then Some s else get_column r name
  end.

(** [df[name]]. *)
Definition getitem (df : DataFrame) (name : string) : result Series :=
  match get_column (columns df) name with
  | Some s => Ok s
  | None => Raise KeyError
  end.

Fixpoint set_column (cols : list (string * Series)) (name : string) (s : Series)
  : list (string * Series) :=
  match cols with
  | [] => [(name, s)]
  | (n, t) :: r =>
      if String.eqb n name then (n, s) :: r else (n, t) :: set_column r name s
  end.

(** [df[name] = s]. *)
Definition setitem (df : DataFrame) (name : string) (s : Series) : DataFrame :=
  {| index := index df; columns := set_column (columns df) name s |}.

(** [df[mask]]: the rows whose mask entry is True, in every column. *)
Definition getitem_rows (df : DataFrame) (m : list bool) : DataFrame :=
  {| index := mask_filter m (index df);
     columns := map (fun c => (fst c, series_filter m (snd c))) (columns df) |}.

(** ** detect_issues *)

(** A Python [dict] with string keys, in insertion order. *)
Definition dict (V : Type) : Type := list (string * V).

Fixpoint dict_get {V : Type} (d : dict V) (k : string) : option V :=
  match d with
  | [] => None
  | (k', v) :: r => if String.eqb k' k then Some v else dict_get r k
  end.

Fixpoint dict_set {V : Type} (d : dict V) (k : string) (v : V) : dict V :=
  match d with
  | [] => [(k, v)]
  | (k', v') :: r =>
      if String.eqb k' k then (k', v) :: r else (k', v') :: dict_set r k v
  end.

(** The decimal digits of a count, as an f-string prints it. *)
Definition str (n : nat) : string := NilEmpty.string_of_uint (Nat.to_uint n).

(** The IQR fences [q1 - 1.5 * iqr] and [q3 + 1.5 * iqr] of a column; the
    detector and both outlier methods compute them in the same way. *)
Definition iqr_bounds (xs : list (option Q)) : option Q * option Q :=
  let q1 := quantile xs 0.25 in
  let q3 := quantile xs 0.75 in
  let iqr := nan_lift2 Qminus q3 q1 in
  (nan_lift2 Qminus q1 (nan_lift2 Qmult (Some 1.5%Q) iqr),
   nan_lift2 Qplus q3 (nan_lift2 Qmult (Some 1.5%Q) iqr)).

Definition missing_count (s : Series) : nat := sum_true (series_isna s).

Definition duplicate_count (s : Series) : nat := sum_true (series_duplicated s).

(** Rows of [df] strictly outside the fences of the numeric column [xs]. *)
Definition outlier_count (df : DataFrame) (xs : list (option Q)) : nat :=
  let (lower_bound, upper_bound) := iqr_bounds xs in
  shape0 (getitem_rows df (mask_or (series_lt xs lower_bound)
                                   (series_gt xs upper_bound))).

(** The body of the loop of [detect_issues] for the column [s] of [df]. *)
Definition column_issues (df : DataFrame) (s : Series) : list string :=
  let issues1 :=
    if 0 <? missing_count s
    then [("Missing values: " ++ str (missing_count s))%string] else [] in
  let issues2 :=
    if 0 <? duplicate_count s
    then issues1 ++ [("Duplicate values: " ++ str (duplicate_count s))%string]
    else issues1 in
  match s with
  | NumSeries xs =>
      if 0 <? outlier_count df xs
      then issues2 ++ [("Outliers detected: " ++ str (outlier_count df xs))%string]
      else issues2
  | ObjSeries _ => issues2
  end.

Definition detect_issues (df : DataFrame) : dict (list string) :=
  fold_left
    (fun issues column =>
       match get_column (columns df) column with
       | Some s =>
           match column_issues df s with
           | [] => issues
           | i :: r => dict_set issues column (i :: r)
           end
       | None => issues
       end)
    (map fst (columns df)) [].

(** ** get_cleaning_methods *)

Definition get_cleaning_methods (d : dtype) : list string :=
  let methods := ["Handle Missing Values"; "Remove Duplicates"] in
  let methods :=
    if is_numeric_dtype d
    then methods ++ ["Handle Outliers"; "Standardize Data"] else methods in
  if is_object_dtype d
  then methods ++ ["Encode Categorical Data"] else methods.

(** ** clean_column *)

Inductive missing_method : Type :=
| ImputeMean
| ImputeMedian
| ImputeMode
| Drop.

Inductive outlier_method : Type :=
| RemoveOutliers
| CapOutliers.

Inductive encoding_method : Type :=
| OneHotEncoding
| LabelEncoding.

(** What the widgets keyed by one column index return. *)
Record widgets : Type := {
  multiselect : list string;
  radio_missing : missing_method;
  radio_outliers : outlier_method;
  selectbox_encoding : encoding_method
}.

(** [name in options]. *)
Definition selected (name : string) (options : list string) : bool :=
  existsb (String.eqb name) options.

(** Lines 48-60.  The in-place [fillna] on [df[column_name]] is taken to
    reach the table, as it does without copy-on-write; the warning shown
    for a non-numeric column leaves the table as it is. *)
Definition handle_missing_values (method : missing_method) (df : DataFrame)
    (column_name : string) : result DataFrame :=
  s <- getitem df column_name ;;
  match s with
  | NumSeries xs =>
      match method with
      | ImputeMean =>
          Ok (setitem df column_name (NumSeries (fillna (mean xs) xs)))
      | ImputeMedian =>
          Ok (setitem df column_name (NumSeries (fillna (median xs) xs)))
      | ImputeMode =>
          v <- getitem0 (mode xs) ;;
          Ok (setitem df column_name (NumSeries (fillna (Some v) xs)))
      | Drop => Ok (getitem_rows df (notna xs))
      end
  | ObjSeries _ => Ok df
  end.

(** Lines 62-63. *)
Definition remove_duplicates (df : DataFrame) (column_name : string)
  : result DataFrame :=
  s <- getitem df column_name ;;
  Ok (getitem_rows df (map negb (series_duplicated s))).

(** Lines 65-76. *)
Definition handle_outliers (method : outlier_method) (df : DataFrame)
    (column_name : string) : result DataFrame :=
  s <- getitem df column_name ;;
  match s with
  | NumSeries xs =>
      let (lower, upper) := iqr_bounds xs in
      match method with
      | RemoveOutliers =>
          Ok (getitem_rows df (mask_and (series_ge xs lower) (series_le xs upper)))
      | CapOutliers =>
          Ok (setitem df column_name (NumSeries (clip lower upper xs)))
      end
  | ObjSeries _ => Ok df
  end.

Section Libraries.
(** The square root behind [Series.std], [pd.get_dummies(df, columns=[c],
    drop_first=True)] and [LabelEncoder().fit_transform] are library code
    whose results no statement below depends on. *)
Variable sqrt : Q -> Q.
Variable get_dummies : DataFrame -> string -> DataFrame.
Variable fit_transform : list (option string) -> result (list Z).

(** [Series.std()]: the sample standard deviation, NaN below two values. *)
Definition std (xs : list (option Q)) : option Q :=
  match dropna_values xs, mean xs with
  | v :: w :: r, Some m =>
      let n := length (v :: w :: r) in
      Some (sqrt (Qsum (map (fun x => (x - m) * (x - m))%Q (v :: w :: r))
                  / inject_Z (Z.of_nat (n - 1))))
  | _, _ => None
  end.

(** Division of cells; a zero divisor gives NaN. *)
Definition nan_div (a b : option Q) : option Q :=
  match a, b with
  | Some x, Some y => if Qeq_bool y 0 then None else Some (Qred (x / y))
  | _, _ => None
  end.

(** Lines 78-79. *)
Definition standardize_data (df : DataFrame) (column_name : string)
  : result DataFrame :=
  s <- getitem df column_name ;;
  match s with
  | NumSeries xs =>
      let m := mean xs in
      let sd := std xs in
      Ok (setitem df column_name
            (NumSeries (map (fun x => nan_div (nan_lift2 Qminus x m) sd) xs)))
  | ObjSeries _ => Ok df
  end.

(** Lines 81-91. *)
Definition encode_categorical_data (method : encoding_method) (df : DataFrame)
    (column_name : string) : result DataFrame :=
  s <- getitem df column_name ;;
  match s with
  | ObjSeries xs =>
      match method with
      | OneHotEncoding => Ok (get_dummies df column_name)
      | LabelEncoding =>
          codes <- fit_transform xs ;;
          Ok (setitem df column_name
                (NumSeries (map (fun z => Some (inject_Z z)) codes)))
      end
  | NumSeries _ => Ok df
  end.

(** [st] gives the state of the widgets of each column index. *)
Definition clean_column (st : nat -> widgets) (df : DataFrame)
    (column_name : string) (column_index : nat) : result DataFrame :=
  _ <- getitem df column_name ;;
  let options := multiselect (st column_index) in
  df <- (if selected "Handle Missing Values" options
         then handle_missing_values (radio_missing (st column_index))
                df column_name
         else Ok df) ;;
  df <- (if selected "Remove Duplicates" options
         then remove_duplicates df column_name else Ok df) ;;
  df <- (if selected "Handle Outliers" options
         then handle_outliers (radio_outliers (st column_index))
                df column_name
         else Ok df) ;;
  df <- (if selected "Standardize Data" options
         then standardize_data df column_name else Ok df) ;;
  df <- (if selected "Encode Categorical Data" options
         then encode_categorical_data (selectbox_encoding (st column_index))
                df column_name
         else Ok df) ;;
  Ok df.

(** [clean_column] as a function of which of the five methods are
    selected. *)
Definition stages (b1 b2 b3 b4 b5 : bool) (m : missing_method)
    (o : outlier_method) (e : encoding_method) (df : DataFrame)
    (column_name : string) : result DataFrame :=
  _ <- getitem df column_name ;;
  df <- (if b1 then handle_missing_values m df column_name else Ok df) ;;
  df <- (if b2 then remove_duplicates df column_name else Ok df) ;;
  df <- (if b3 then handle_outliers o df column_name else Ok df) ;;
  df <- (if b4 then standardize_data df column_name else Ok df) ;;
  df <- (if b5 then encode_categorical_data e df column_name else Ok df) ;;
  Ok df.

(** The loop of [main], lines 141-142: the column names are those of the
    table before the loop, each is cleaned once with its position as the
    widget index, and the table is passed along. *)
Fixpoint clean_columns_from (st : nat -> widgets) (names : list string)
    (index : nat) (df : DataFrame) : result DataFrame :=
  match names with
  | [] => Ok df
  | column :: rest =>
      df' <- clean_column st df column index ;;
      clean_columns_from st rest (S index) df'
  end.

Definition clean_columns (st : nat -> widgets) (df : DataFrame)
  : result DataFrame :=
  clean_columns_from st (map fst (columns df)) 0 df.
End Libraries.

(** ** load_data *)

Section Loader.
(** The uploaded file is a stream with a position; [read_csv] leaves it
    where the attempt stopped. *)
Variable stream : Type.
Variable read_csv : stream -> string -> result DataFrame * stream.

Fixpoint try_encodings (encodings : list string) (uploaded_file : stream)
  : result (option DataFrame) :=
  match encodings with
  | [] => Ok None
  | encoding :: rest =>
      match read_csv uploaded_file encoding with
      | (Ok df, _) => Ok (Some df)
      | (Raise UnicodeDecodeError, uploaded_file') =>
          try_encodings rest uploaded_file'
      | (Raise e, _) => Raise e
      end
  end.

Definition encodings : list string :=
  ["utf-8"; "latin1"; "ISO-8859-1"; "cp1252"].

(** [Ok None] is the [return None] after [st.error]; [Raise] is an
    exception that leaves [load_data]. *)
Definition load_data (uploaded_file : stream) : result (option DataFrame) :=
  try_encodings encodings uploaded_file.

(** Every attempt, made on the stream as the one before left it, ends in
    a [UnicodeDecodeError]. *)
Fixpoint undecodable (encs : list string) (uploaded_file : stream) : Prop :=
  match encs with
  | [] => True
  | encoding :: rest =>
      fst (read_csv uploaded_file encoding) = Raise UnicodeDecodeError
      /\ undecodable rest (snd (read_csv uploaded_file encoding))
  end.

(** The stream as the attempts with [encs] leave it, one after the other. *)
Fixpoint stream_after (encs : list string) (uploaded_file : stream) : stream :=
  match encs with
  | [] => uploaded_file
  | encoding :: rest => stream_after rest (snd (read_csv uploaded_file encoding))
  end.
End Loader.

(** ** Notions used in the statements *)

(** The position of the first True of a mask. *)
Fixpoint first_true (m : list bool) : option nat :=
  match m with
  | [] => None
  | true :: _ => Some 0
  | false :: r => option_map S (first_true r)
  end.




(** The selected methods that [get_cleaning_methods] lists for a dtype. *)
Definition offered (d : dtype) (options : list string) : list string :=
  filter (fun name => selected name (get_cleaning_methods d)) options.

Definition has_dtype (d : dtype) (df : DataFrame) (column_name : string) : Prop :=
  exists s, get_column (columns df) column_name = Some s /\ dtype_of s = d.

(** The entry that the loop of [detect_issues] makes for a column. *)
Definition reported (df : DataFrame) (column : string) : option (list string) :=
  match get_column (columns df) column with
  | Some s =>
      match column_issues df s with
      | [] => None
      | i :: r => Some (i :: r)
      end
  | None => None
  end.

(** The tables that come from [df] by assignments to the column
    [column_name] that keep its length and, when [rows] is set, by row
    selections. *)
Inductive reach (rows : bool) (column_name : string) (df : DataFrame)
  : DataFrame -> Prop :=
| reach_refl : reach rows column_name df df
| reach_set (df' : DataFrame) (s s' : Series) :
    reach rows column_name df df' ->
    get_column (columns df') column_name = Some s ->
    series_len s' = series_len s ->
    reach rows column_name df (setitem df' column_name s')
| reach_rows (df' : DataFrame) (m : list bool) :
    rows = true ->
    reach rows column_name df df' ->
    reach rows column_name df (getitem_rows df' m).

(** ** Sample inputs

    The statements that evaluate [clean_column] on a concrete table fix the
    three library functions; [sample_get_dummies] drops the encoded column
    and leaves the indicator columns out. *)

Definition sample_sqrt (q : Q) : Q := inject_Z (Z.sqrt (Qfloor q)).

Definition sample_get_dummies (df : DataFrame) (column_name : string) : DataFrame :=
  {| index := index df;
     columns := filter (fun c => negb (String.eqb (fst c) column_name))
                       (columns df) |}.

Definition sample_fit_transform (xs : list (option string)) : result (list Z) :=
  Raise TypeError.

Definition sample_clean_column :=
  clean_column sample_sqrt sample_get_dummies sample_fit_transform.

(** One state of the widgets for every column index. *)
Definition choose (options : list string) (m : missing_method)
    (o : outlier_method) (e : encoding_method) : nat -> widgets :=
  fun _ => {| multiselect := options; radio_missing := m;
              radio_outliers := o; selectbox_encoding := e |}.

Definition numbers (l : list Z) : list (option Q) :=
  map (fun z => Some (inject_Z z)) l.

Definition NaN : option Q := None.

(** A text column with three missing entries. *)
Definition city : Series :=
  ObjSeries [Some "Pune"; None; Some "Agra"; None; None].

(** A table with a numeric column that is clean, one with missing entries,
    and the text column. *)
Definition people : DataFrame :=
  {| index := [0; 1; 2; 3; 4];
     columns :=
       [("age", NumSeries (numbers [21; 35; 50; 42; 28]%Z));
        ("income", NumSeries [Some 1%Q; Some 2%Q; NaN; Some 4%Q; NaN]);
        ("city", city)] |}.


(** A numeric column read from empty fields only. *)
Definition blank : DataFrame :=
  {| index := [0; 1];
     columns := [("score", NumSeries [NaN; NaN])] |}.

(** A reader that decodes 7-bit input only, whatever the encoding. *)
Definition seven_bit_reader (bytes : list nat) (encoding : string)
  : result DataFrame * list nat :=
  if forallb (fun b => b <? 128) bytes
  then (Ok {| index := []; columns := [] |}, [])
  else (Raise UnicodeDecodeError, bytes).

(** A reader for which utf-8 decodes 7-bit input only and every other
    encoding decodes everything. *)
Definition strict_utf8_reader (bytes : list nat) (encoding : string)
  : result DataFrame * list nat :=
  if String.eqb encoding "utf-8" && negb (forallb (fun b => b <? 128) bytes)
  then (Raise UnicodeDecodeError, bytes)
  else (Ok {| index := []; columns := [] |}, []).

(** ** Lists, masks and lookups *)

Lemma mask_filter_length_le {B : Type} (m : list bool) (xs : list B) :
  length (mask_filter m xs) <= sum_true m.
Proof.
  unfold sum_true.
  revert xs; induction m as [|b m IH]; intros [|x xs]; simpl; try lia.
  destruct b; simpl; specialize (IH xs); lia.
Qed.

Lemma mask_filter_length {B : Type} (m : list bool) (xs : list B) :
  length m = length xs -> length (mask_filter m xs) = sum_true m.
Proof.
  revert xs; induction m as [|b m IH]; intros [|x xs] H; simpl in *;
    try discriminate; try reflexivity.
  injection H as H. unfold sum_true in *.
  destruct b; simpl; rewrite IH by assumption; reflexivity.
Qed.

Lemma mask_filter_all_true {B : Type} (m : list bool) (xs : list B) :
  Forall (fun b => b = true) m -> length xs <= length m ->
  mask_filter m xs = xs.
Proof.
  intros Hm; revert xs; induction Hm as [|b m Hb Hm IH]; intros [|x xs] Hl;
    simpl in *; try reflexivity; try lia.
  subst b. rewrite IH by lia. reflexivity.
Qed.

Lemma get_column_map (f : Series -> Series) (cols : list (string * Series))
    (name : string) :
  get_column (map (fun c => (fst c, f (snd c))) cols) name
  = option_map f (get_column cols name).
Proof.
  induction cols as [|[n s] r IH]; simpl; [reflexivity|].
  destruct (String.eqb n name); [reflexivity | exact IH].
Qed.

Lemma get_column_set (cols : list (string * Series)) (name : string)
    (s : Series) :
  get_column (set_column cols name s) name = Some s.
Proof.
  induction cols as [|[n t] r IH]; simpl.
  - rewrite String.eqb_refl. reflexivity.
  - destruct (String.eqb n name) eqn:E; simpl; rewrite E; [reflexivity | exact IH].
Qed.

Lemma getitem_rows_column (df : DataFrame) (m : list bool) (name : string) :
  get_column (columns (getitem_rows df m)) name
  = option_map (series_filter m) (get_column (columns df) name).
Proof. unfold getitem_rows; simpl. apply get_column_map. Qed.

Lemma getitem_Some (df : DataFrame) (name : string) (s : Series) :
  get_column (columns df) name = Some s -> getitem df name = Ok s.
Proof. unfold getitem; intros ->; reflexivity. Qed.

Arguments try_encodings {stream} read_csv encodings uploaded_file.
Arguments load_data {stream} read_csv uploaded_file.
Arguments undecodable {stream} read_csv encs uploaded_file.

(** ** The loader *)




(** ** The detector *)

Lemma dict_get_set_other {V : Type} (d : dict V) (k k' : string) (v : V) :
  String.eqb k' k = false -> dict_get (dict_set d k' v) k = dict_get d k.
Proof.
  intros Hk; induction d as [|[k0 v0] r IH]; simpl.
  - rewrite Hk. reflexivity.
  - destruct (String.eqb k0 k') eqn:E; simpl.
    + apply String.eqb_eq in E; subst k0. rewrite Hk. reflexivity.
    + rewrite IH. reflexivity.
Qed.

(** An entry of the result comes from a column that has an issue. *)
Lemma detect_issues_absent (df : DataFrame) (column : string) :
  (forall s, get_column (columns df) column = Some s -> column_issues df s = []) ->
  dict_get (detect_issues df) column = None.
Proof.
  intros H. unfold detect_issues.
  assert (G : forall names acc,
             dict_get acc column = None ->
             dict_get
               (fold_left
                  (fun issues c =>
                     match get_column (columns df) c with
                     | Some s =>
                         match column_issues df s with
                         | [] => issues
                         | i :: r => dict_set issues c (i :: r)
                         end
                     | None => issues
                     end) names acc) column = None).
  { induction names as [|n names IH]; intros acc Hacc; simpl; [exact Hacc|].
    apply IH.
    destruct (get_column (columns df) n) as [s|] eqn:Es; [|exact Hacc].
    destruct (column_issues df s) as [|i r] eqn:Ei; [exact Hacc|].
    destruct (String.eqb n column) eqn:E.
    - apply String.eqb_eq in E; subst n.
      rewrite (H s Es) in Ei. discriminate.
    - rewrite dict_get_set_other by exact E. exact Hacc. }
  apply G. reflexivity.
Qed.

Lemma column_issues_clean (df : DataFrame) (s : Series) :
  missing_count s = 0 -> duplicate_count s = 0 ->
  (forall xs, s = NumSeries xs -> outlier_count df xs = 0) ->
  column_issues df s = [].
Proof.
  intros Hm Hd Ho. unfold column_issues. rewrite Hm, Hd. simpl.
  destruct s as [xs|xs]; [|reflexivity].
  rewrite (Ho xs eq_refl). reflexivity.
Qed.

(** C8: a column with no missing entry, no duplicate within the column and
    no value outside the IQR fences has no entry in the mapping that
    [detect_issues] returns (no key at all, rather than a key with an
    empty list). *)
Theorem detect_issues_omits_clean_column (df : DataFrame) (column : string)
    (s : Series) :
  get_column (columns df) column = Some s ->
  missing_count s = 0 ->
  duplicate_count s = 0 ->
  (forall xs, s = NumSeries xs -> outlier_count df xs = 0) ->
  dict_get (detect_issues df) column = None.
Proof.
  intros Hs Hm Hd Ho. apply detect_issues_absent.
  intros s' Hs'. rewrite Hs in Hs'. injection Hs' as <-.
  apply column_issues_clean; assumption.
Qed.

(** ** One method at a time *)

Lemma bind_Ok_r {A : Type} (r : result A) : (x <- r ;; Ok x) = r.
Proof. destruct r; reflexivity. Qed.

Section OneMethod.
Variable sqrt : Q -> Q.
Variable get_dummies : DataFrame -> string -> DataFrame.
Variable fit_transform : list (option string) -> result (list Z).
Variables (m : missing_method) (o : outlier_method) (e : encoding_method).

Local Abbreviation clean := (clean_column sqrt get_dummies fit_transform).

Lemma clean_column_missing_only (df : DataFrame) (c : string) (i : nat) :
  clean (choose ["Handle Missing Values"] m o e) df c i
  = handle_missing_values m df c.
Proof.
  unfold clean_column, handle_missing_values, choose; simpl.
  destruct (getitem df c) as [s|x]; simpl; [|reflexivity].
  apply bind_Ok_r.
Qed.

Lemma clean_column_duplicates_only (df : DataFrame) (c : string) (i : nat) :
  clean (choose ["Remove Duplicates"] m o e) df c i = remove_duplicates df c.
Proof.
  unfold clean_column, remove_duplicates, choose; simpl.
  destruct (getitem df c) as [s|x]; reflexivity.
Qed.

End OneMethod.

(** ** Missing entries *)

Lemma mask_filter_notna {A : Type} (xs : list (option A)) :
  mask_filter (notna xs) xs = map Some (dropna_values xs).
Proof.
  unfold notna, isna. induction xs as [|[v|] r IH]; simpl;
    [reflexivity | f_equal; exact IH | exact IH].
Qed.


Lemma fillna_length {A : Type} (value : option A) (xs : list (option A)) :
  length (fillna value xs) = length xs.
Proof. apply length_map. Qed.









(** ** The transformer *)

Section Transformer.
Variable sqrt : Q -> Q.
Variable get_dummies : DataFrame -> string -> DataFrame.
Variable fit_transform : list (option string) -> result (list Z).

Local Abbreviation clean := (clean_column sqrt get_dummies fit_transform).

(** C1 (amended): with Handle Missing Values and Drop on a numeric
    column, exactly the rows where the column is missing are removed, from
    every column; on a column of dtype object the same choice, like every
    other choice of that method, returns the table as it was. *)
Theorem drop_follows_dtype (df : DataFrame) (column_name : string)
    (column_index : nat) (m : missing_method) (o : outlier_method)
    (e : encoding_method) :
  (forall xs,
      get_column (columns df) column_name = Some (NumSeries xs) ->
      clean (choose ["Handle Missing Values"] Drop o e)
            df column_name column_index
      = Ok (getitem_rows df (notna xs))
      /\ get_column (columns (getitem_rows df (notna xs))) column_name
         = Some (NumSeries (map Some (dropna_values xs))))
  /\ (forall xs,
         get_column (columns df) column_name = Some (ObjSeries xs) ->
         clean (choose ["Handle Missing Values"] m o e)
               df column_name column_index
         = Ok df).
Proof.
  split; intros xs H; rewrite clean_column_missing_only;
    unfold handle_missing_values; rewrite (getitem_Some _ _ _ H).
  - split; [reflexivity|].
    rewrite getitem_rows_column, H. simpl. rewrite mask_filter_notna.
    reflexivity.
  - reflexivity.
Qed.

End Transformer.

Lemma drop_follows_dtype_witness :
  sample_clean_column (choose ["Handle Missing Values"] Drop CapOutliers
                              LabelEncoding) people "income" 1
  = Ok {| index := [0; 1; 3];
          columns :=
            [("age", NumSeries (numbers [21; 35; 42]%Z));
             ("income", NumSeries [Some 1%Q; Some 2%Q; Some 4%Q]);
             ("city", ObjSeries [Some "Pune"; None; None])] |}.
Proof.
  exact (proj1 (proj1 (drop_follows_dtype sample_sqrt sample_get_dummies
                         sample_fit_transform people "income" 1 Drop
                         CapOutliers LabelEncoding)
                  [Some 1%Q; Some 2%Q; NaN; Some 4%Q; NaN] eq_refl)).
Defined.

(** C1 as stated fails: on the text column of [people], which has three
    missing entries, Drop removes no row. *)
Lemma drop_keeps_object_rows :
  sample_clean_column (choose ["Handle Missing Values"] Drop CapOutliers
                              LabelEncoding) people "city" 2
  = Ok people
  /\ get_column (columns people) "city"
     = Some (ObjSeries [Some "Pune"; None; Some "Agra"; None; None])
  /\ missing_count (ObjSeries [Some "Pune"; None; Some "Agra"; None; None]) = 3.
Proof. repeat split. Qed.



(** ** Duplicates *)

Section Keys.
Context {A : Type}.
Variable eqb : A -> A -> bool.

Local Abbreviation key_eqb := (cell_eqb eqb).

Lemma duplicated_from_length (seen xs : list (option A)) :
  length (duplicated_from eqb seen xs) = length xs.
Proof.
  revert seen; induction xs as [|x r IH]; intros seen; simpl;
    [reflexivity | rewrite IH; reflexivity].
Qed.

Lemma duplicated_from_ext (s1 s2 xs : list (option A)) :
  (forall y, existsb (key_eqb y) s1 = existsb (key_eqb y) s2) ->
  duplicated_from eqb s1 xs = duplicated_from eqb s2 xs.
Proof.
  revert s1 s2; induction xs as [|x r IH]; intros s1 s2 H; simpl;
    [reflexivity|].
  rewrite (H x). f_equal. apply IH. intros y. simpl. rewrite (H y).
  reflexivity.
Qed.

(** Missing rows among the duplicates: all of them once a missing row was
    seen, all but the first otherwise. *)
Lemma missing_duplicates (seen xs : list (option A)) :
  sum_true (mask_and (isna xs) (duplicated_from eqb seen xs))
  = if existsb (key_eqb None) seen
    then sum_true (isna xs) else sum_true (isna xs) - 1.
Proof.
  unfold sum_true, isna.
  revert seen; induction xs as [|[v|] r IH]; intros seen; simpl.
  - destruct (existsb _ seen); reflexivity.
  - rewrite IH. simpl. reflexivity.
  - destruct (existsb (key_eqb None) seen); simpl; rewrite IH; simpl; lia.
Qed.

Lemma missing_kept (seen xs : list (option A)) :
  sum_true (isna (keep_first eqb seen xs))
  = if existsb (key_eqb None) seen
    then 0 else Nat.min 1 (sum_true (isna xs)).
Proof.
  unfold keep_first, sum_true, isna.
  revert seen; induction xs as [|[v|] r IH]; intros seen; simpl.
  - destruct (existsb _ seen); reflexivity.
  - destruct (existsb (key_eqb (Some v)) seen); simpl; rewrite IH; simpl;
      reflexivity.
  - destruct (existsb (key_eqb None) seen) eqn:E; simpl; rewrite IH; simpl;
      [reflexivity | lia].
Qed.

Lemma first_missing_kept (seen xs : list (option A)) (k : nat) :
  existsb (key_eqb None) seen = false ->
  first_true (isna xs) = Some k ->
  nth k (duplicated_from eqb seen xs) true = false.
Proof.
  unfold isna.
  revert seen k; induction xs as [|[v|] r IH]; intros seen k Hs Hk;
    simpl in *; try discriminate.
  - destruct (first_true _) as [k'|] eqn:E; simpl in Hk; [|discriminate].
    injection Hk as <-. apply IH; [|reflexivity]. simpl. exact Hs.
  - injection Hk as <-. exact Hs.
Qed.

Hypothesis eqb_trans :
  forall x y z, eqb x y = true -> eqb y z = true -> eqb x z = true.

Lemma key_eqb_trans (x y z : option A) :
  key_eqb x y = true -> key_eqb y z = true -> key_eqb x z = true.
Proof.
  destruct x, y, z; simpl; try discriminate; try reflexivity.
  apply eqb_trans.
Qed.

(** After [drop_duplicates] no row is a duplicate. *)
Lemma keep_first_no_duplicates (seen xs : list (option A)) :
  Forall (fun b => b = false)
         (duplicated_from eqb seen (keep_first eqb seen xs)).
Proof.
  unfold keep_first.
  revert seen; induction xs as [|x r IH]; intros seen; simpl; [constructor|].
  destruct (existsb (key_eqb x) seen) eqn:E; simpl.
  - rewrite (duplicated_from_ext seen (x :: seen)); [apply IH|].
    intros y. simpl. destruct (key_eqb y x) eqn:Eyx; [|reflexivity].
    simpl. apply existsb_exists in E. destruct E as [z [Hz Hxz]].
    apply existsb_exists. exists z. split; [exact Hz|].
    eapply key_eqb_trans; eassumption.
  - rewrite E. constructor; [reflexivity | apply IH].
Qed.
End Keys.

Lemma string_eqb_trans (x y z : string) :
  String.eqb x y = true -> String.eqb y z = true -> String.eqb x z = true.
Proof.
  intros H1 H2. apply String.eqb_eq in H1, H2. subst. apply String.eqb_refl.
Qed.

Lemma series_duplicated_length (s : Series) :
  length (series_duplicated s) = series_len s.
Proof. destruct s; apply duplicated_from_length. Qed.

Lemma series_filter_len (m : list bool) (s : Series) :
  length m = series_len s -> series_len (series_filter m s) = sum_true m.
Proof. destruct s; simpl; apply mask_filter_length. Qed.

Lemma series_filter_len_le (m : list bool) (s : Series) :
  series_len (series_filter m s) <= sum_true m.
Proof. destruct s; simpl; apply mask_filter_length_le. Qed.

Lemma series_filter_all_true (m : list bool) (s : Series) :
  Forall (fun b => b = true) m -> series_len s <= length m ->
  series_filter m s = s.
Proof.
  intros Hm Hl. destruct s; simpl in *; f_equal;
    apply mask_filter_all_true; assumption.
Qed.

Lemma negb_all_false (m : list bool) :
  Forall (fun b => b = false) m -> Forall (fun b => b = true) (map negb m).
Proof.
  induction 1 as [|b m Hb Hm IH]; simpl; constructor;
    [subst b; reflexivity | exact IH].
Qed.

(** The rows kept by one [drop_duplicates] all pass a second one. *)
Lemma series_keep_first_fixed (s : Series) :
  let s1 := series_filter (map negb (series_duplicated s)) s in
  Forall (fun b => b = true) (map negb (series_duplicated s1))
  /\ length (map negb (series_duplicated s1))
     = sum_true (map negb (series_duplicated s)).
Proof.
  simpl. split.
  - apply negb_all_false. destruct s as [xs|xs]; simpl.
    + apply (keep_first_no_duplicates Qeq_bool Qeq_bool_trans).
    + apply (keep_first_no_duplicates String.eqb string_eqb_trans).
  - rewrite length_map, series_duplicated_length.
    apply series_filter_len.
    rewrite length_map. apply series_duplicated_length.
Qed.

Lemma getitem_rows_fixed (df : DataFrame) (m1 m2 : list bool) :
  Forall (fun b => b = true) m2 -> length m2 = sum_true m1 ->
  getitem_rows (getitem_rows df m1) m2 = getitem_rows df m1.
Proof.
  intros Ht Hl. unfold getitem_rows; simpl. f_equal.
  - apply mask_filter_all_true; [exact Ht|].
    rewrite Hl. apply mask_filter_length_le.
  - rewrite map_map. apply map_ext. intros [n t]; simpl. f_equal.
    apply series_filter_all_true; [exact Ht|].
    rewrite Hl. apply series_filter_len_le.
Qed.

Lemma sum_true_mask_and_le (a b : list bool) :
  sum_true (mask_and a b) <= sum_true b.
Proof.
  unfold sum_true. revert b; induction a as [|x a IH]; intros [|y b]; simpl;
    try lia.
  specialize (IH b). destruct x, y; simpl; lia.
Qed.

Lemma series_missing_duplicates (s : Series) :
  sum_true (mask_and (series_isna s) (series_duplicated s))
  = missing_count s - 1.
Proof.
  unfold missing_count. destruct s as [xs|xs]; simpl; unfold duplicated;
    rewrite missing_duplicates; reflexivity.
Qed.

Lemma series_missing_kept (s : Series) :
  missing_count (series_filter (map negb (series_duplicated s)) s)
  = Nat.min 1 (missing_count s).
Proof.
  unfold missing_count. destruct s as [xs|xs]; simpl; unfold duplicated.
  - apply (missing_kept Qeq_bool [] xs).
  - apply (missing_kept String.eqb [] xs).
Qed.

Lemma series_first_missing_kept (s : Series) (k : nat) :
  first_true (series_isna s) = Some k ->
  nth k (series_duplicated s) true = false.
Proof.
  destruct s as [xs|xs]; simpl; unfold duplicated;
    apply first_missing_kept; reflexivity.
Qed.

Lemma duplicates_reported (df : DataFrame) (s : Series) :
  0 < duplicate_count s ->
  In ("Duplicate values: " ++ str (duplicate_count s))%string
     (column_issues df s).
Proof.
  intros H. apply Nat.ltb_lt in H. unfold column_issues. rewrite H.
  assert (G : forall l, In ("Duplicate values: " ++ str (duplicate_count s))%string
                           (l ++ ["Duplicate values: " ++ str (duplicate_count s)]%string)).
  { intros l. apply in_or_app. right. left. reflexivity. }
  destruct s as [xs|xs]; [|apply G].
  destruct (0 <? outlier_count df xs); [apply in_or_app; left|]; apply G.
Qed.

Section Deduplication.
Variable sqrt : Q -> Q.
Variable get_dummies : DataFrame -> string -> DataFrame.
Variable fit_transform : list (option string) -> result (list Z).

Local Abbreviation clean := (clean_column sqrt get_dummies fit_transform).

(** C7: Remove Duplicates on a column, applied a second time to the table
    that the first application returned, returns that table again (and
    when the column does not exist both runs raise the same error). *)
Theorem remove_duplicates_idempotent (df : DataFrame) (column_name : string)
    (column_index : nat) (m : missing_method) (o : outlier_method)
    (e : encoding_method) :
  (df' <- clean (choose ["Remove Duplicates"] m o e)
                df column_name column_index ;;
   clean (choose ["Remove Duplicates"] m o e) df' column_name column_index)
  = clean (choose ["Remove Duplicates"] m o e) df column_name column_index.
Proof.
  rewrite clean_column_duplicates_only. unfold remove_duplicates, getitem.
  destruct (get_column (columns df) column_name) as [s|] eqn:E; simpl;
    [|reflexivity].
  rewrite clean_column_duplicates_only. unfold remove_duplicates, getitem.
  rewrite getitem_rows_column, E. simpl. f_equal.
  apply getitem_rows_fixed; apply series_keep_first_fixed.
Qed.

(** C9: in a column with two or more missing entries every missing row
    but the first is flagged by the duplicate check, so that they are
    part of the count reported as "Duplicate values"; the first missing
    row is not flagged, and Remove Duplicates on that column returns a
    table in which the column has exactly one missing entry. *)
Theorem missing_rows_are_duplicates (df : DataFrame) (column_name : string)
    (column_index : nat) (s : Series) (m : missing_method)
    (o : outlier_method) (e : encoding_method) :
  get_column (columns df) column_name = Some s ->
  2 <= missing_count s ->
  sum_true (mask_and (series_isna s) (series_duplicated s))
  = missing_count s - 1
  /\ missing_count s - 1 <= duplicate_count s
  /\ In ("Duplicate values: " ++ str (duplicate_count s))%string
        (column_issues df s)
  /\ (forall k, first_true (series_isna s) = Some k ->
                nth k (series_duplicated s) true = false)
  /\ exists df' s',
      clean (choose ["Remove Duplicates"] m o e) df column_name column_index
      = Ok df'
      /\ get_column (columns df') column_name = Some s'
      /\ s' = series_filter (map negb (series_duplicated s)) s
      /\ missing_count s' = 1.
Proof.
  intros Hs Hm.
  assert (Hle : missing_count s - 1 <= duplicate_count s).
  { rewrite <- series_missing_duplicates. apply sum_true_mask_and_le. }
  split; [apply series_missing_duplicates|].
  split; [exact Hle|].
  split; [apply duplicates_reported; lia|].
  split; [intros k; apply series_first_missing_kept|].
  exists (getitem_rows df (map negb (series_duplicated s))).
  exists (series_filter (map negb (series_duplicated s)) s).
  split.
  - rewrite clean_column_duplicates_only. unfold remove_duplicates.
    rewrite (getitem_Some _ _ _ Hs). reflexivity.
  - split; [rewrite getitem_rows_column, Hs; reflexivity|].
    split; [reflexivity|].
    rewrite series_missing_kept. lia.
Qed.
End Deduplication.

Lemma missing_rows_are_duplicates_witness :
  2 <= missing_count city
  /\ sum_true (mask_and (series_isna city) (series_duplicated city))
     = missing_count city - 1
  /\ missing_count city - 1 <= duplicate_count city
  /\ In ("Duplicate values: " ++ str (duplicate_count city))%string
        (column_issues people city)
  /\ (forall k, first_true (series_isna city) = Some k ->
                nth k (series_duplicated city) true = false)
  /\ exists df' s',
      sample_clean_column (choose ["Remove Duplicates"] Drop CapOutliers
                                  LabelEncoding) people "city" 2
      = Ok df'
      /\ get_column (columns df') "city" = Some s'
      /\ s' = series_filter (map negb (series_duplicated city)) city
      /\ missing_count s' = 1.
Proof.
  split; [vm_compute; lia|].
  apply (missing_rows_are_duplicates sample_sqrt sample_get_dummies
           sample_fit_transform people "city" 2 city);
    [reflexivity | vm_compute; lia].
Defined.

(** ** Quantiles *)









Lemma Ok_eq {A : Type} (x y : A) : Ok x = Ok y -> x = y.
Proof. congruence. Qed.








(** ** Outliers *)



















Lemma shape0_getitem_rows (df : DataFrame) (m : list bool) :
  shape0 (getitem_rows df m) = length (mask_filter m (index df)).
Proof. reflexivity. Qed.








Section Outliers.
Variable sqrt : Q -> Q.
Variable get_dummies : DataFrame -> string -> DataFrame.
Variable fit_transform : list (option string) -> result (list Z).

Local Abbreviation clean := (clean_column sqrt get_dummies fit_transform).



End Outliers.

(** ** Methods and dtypes *)

Lemma selected_filter (p : string -> bool) (name : string)
    (options : list string) :
  selected name (filter p options) = selected name options && p name.
Proof.
  unfold selected. induction options as [|x r IH]; simpl; [reflexivity|].
  destruct (String.eqb name x) eqn:E.
  - apply String.eqb_eq in E. subst x.
    destruct (p name); simpl; [rewrite String.eqb_refl; reflexivity|].
    rewrite IH. apply andb_false_r.
  - destruct (p x); simpl; [rewrite E|]; exact IH.
Qed.

Lemma bind_congr {A B : Type} (r : result A) (k1 k2 : A -> result B) :
  (forall a, r = Ok a -> k1 a = k2 a) -> bind r k1 = bind r k2.
Proof. intros H. destruct r as [a|x]; simpl; [apply H|]; reflexivity. Qed.

Lemma dtype_of_filter (m : list bool) (s : Series) :
  dtype_of (series_filter m s) = dtype_of s.
Proof. destruct s; reflexivity. Qed.

Lemma has_dtype_setitem (df : DataFrame) (column_name : string) (s : Series) :
  has_dtype (dtype_of s) (setitem df column_name s) column_name.
Proof. exists s. split; [apply get_column_set | reflexivity]. Qed.

Lemma has_numeric_setitem (df : DataFrame) (column_name : string)
    (ys : list (option Q)) :
  has_dtype numeric (setitem df column_name (NumSeries ys)) column_name.
Proof. apply (has_dtype_setitem df column_name (NumSeries ys)). Qed.

Lemma has_dtype_getitem_rows (d : dtype) (df : DataFrame)
    (column_name : string) (m : list bool) :
  has_dtype d df column_name -> has_dtype d (getitem_rows df m) column_name.
Proof.
  intros [s [Hs Hd]]. exists (series_filter m s).
  split; [rewrite getitem_rows_column, Hs; reflexivity|].
  rewrite dtype_of_filter. exact Hd.
Qed.

Lemma has_dtype_getitem (d : dtype) (df : DataFrame) (column_name : string) :
  has_dtype d df column_name ->
  exists s, getitem df column_name = Ok s /\ dtype_of s = d.
Proof.
  intros [s [Hs Hd]]. exists s. split; [apply getitem_Some, Hs | exact Hd].
Qed.

Lemma handle_missing_values_dtype (d : dtype) (m : missing_method)
    (df df' : DataFrame) (column_name : string) :
  has_dtype d df column_name ->
  handle_missing_values m df column_name = Ok df' ->
  has_dtype d df' column_name.
Proof.
  intros Hd H. destruct (has_dtype_getitem _ _ _ Hd) as [s [Hs <-]].
  unfold handle_missing_values in H. rewrite Hs in H. cbn [bind] in H.
  destruct s as [xs|xs]; [|apply Ok_eq in H; subst df'; exact Hd].
  destruct m.
  - apply Ok_eq in H. subst df'.
    apply has_numeric_setitem.
  - apply Ok_eq in H. subst df'.
    apply has_numeric_setitem.
  - destruct (getitem0 (mode xs)) as [v|x]; [|discriminate].
    cbn [bind] in H. apply Ok_eq in H. subst df'.
    apply has_numeric_setitem.
  - apply Ok_eq in H. subst df'.
    apply has_dtype_getitem_rows, Hd.
Qed.

Lemma remove_duplicates_dtype (d : dtype) (df df' : DataFrame)
    (column_name : string) :
  has_dtype d df column_name ->
  remove_duplicates df column_name = Ok df' ->
  has_dtype d df' column_name.
Proof.
  intros Hd H. destruct (has_dtype_getitem _ _ _ Hd) as [s [Hs _]].
  unfold remove_duplicates in H. rewrite Hs in H. cbn [bind] in H.
  apply Ok_eq in H. subst df'. apply has_dtype_getitem_rows, Hd.
Qed.

Lemma handle_outliers_object (o : outlier_method) (df : DataFrame)
    (column_name : string) :
  has_dtype object df column_name ->
  handle_outliers o df column_name = Ok df.
Proof.
  intros Hd. destruct (has_dtype_getitem _ _ _ Hd) as [s [Hs Ho]].
  unfold handle_outliers. rewrite Hs. cbn [bind].
  destruct s; [discriminate | reflexivity].
Qed.

Lemma handle_outliers_dtype (d : dtype) (o : outlier_method)
    (df df' : DataFrame) (column_name : string) :
  has_dtype d df column_name ->
  handle_outliers o df column_name = Ok df' ->
  has_dtype d df' column_name.
Proof.
  intros Hd H. destruct (has_dtype_getitem _ _ _ Hd) as [s [Hs <-]].
  unfold handle_outliers in H. rewrite Hs in H. cbn [bind] in H.
  destruct s as [xs|xs]; [|apply Ok_eq in H; subst df'; exact Hd].
  destruct (iqr_bounds xs) as [lower upper], o;
    apply Ok_eq in H; subst df'.
  - apply has_dtype_getitem_rows, Hd.
  - apply has_numeric_setitem.
Qed.

Section Guards.
Variable sqrt : Q -> Q.
Variable get_dummies : DataFrame -> string -> DataFrame.
Variable fit_transform : list (option string) -> result (list Z).

Local Abbreviation clean := (clean_column sqrt get_dummies fit_transform).
Local Abbreviation staged := (stages sqrt get_dummies fit_transform).

Lemma standardize_data_object (df : DataFrame) (column_name : string) :
  has_dtype object df column_name ->
  standardize_data sqrt df column_name = Ok df.
Proof.
  intros Hd. destruct (has_dtype_getitem _ _ _ Hd) as [s [Hs Ho]].
  unfold standardize_data. rewrite Hs. cbn [bind].
  destruct s; [discriminate | reflexivity].
Qed.

Lemma standardize_data_dtype (d : dtype) (df df' : DataFrame)
    (column_name : string) :
  has_dtype d df column_name ->
  standardize_data sqrt df column_name = Ok df' ->
  has_dtype d df' column_name.
Proof.
  intros Hd H. destruct (has_dtype_getitem _ _ _ Hd) as [s [Hs <-]].
  unfold standardize_data in H. rewrite Hs in H. cbn [bind] in H.
  destruct s as [xs|xs]; apply Ok_eq in H; subst df';
    [apply has_numeric_setitem | exact Hd].
Qed.

Lemma encode_categorical_data_numeric (e : encoding_method) (df : DataFrame)
    (column_name : string) :
  has_dtype numeric df column_name ->
  encode_categorical_data get_dummies fit_transform e df column_name = Ok df.
Proof.
  intros Hd. destruct (has_dtype_getitem _ _ _ Hd) as [s [Hs Ho]].
  unfold encode_categorical_data. rewrite Hs. cbn [bind].
  destruct s; [reflexivity | discriminate].
Qed.

Lemma clean_column_stages (options : list string) (m : missing_method)
    (o : outlier_method) (e : encoding_method) (df : DataFrame)
    (column_name : string) (column_index : nat) :
  clean (choose options m o e) df column_name column_index
  = staged (selected "Handle Missing Values" options)
           (selected "Remove Duplicates" options)
           (selected "Handle Outliers" options)
           (selected "Standardize Data" options)
           (selected "Encode Categorical Data" options)
           m o e df column_name.
Proof. reflexivity. Qed.

Lemma stages_keep_dtype (d : dtype) (b1 b2 b3 b4 : bool)
    (m : missing_method) (o : outlier_method) (df : DataFrame)
    (column_name : string) :
  has_dtype d df column_name ->
  (forall df1,
      (if b1 then handle_missing_values m df column_name else Ok df)
      = Ok df1 -> has_dtype d df1 column_name)
  /\ (forall df1,
        (if b2 then remove_duplicates df column_name else Ok df) = Ok df1 ->
        has_dtype d df1 column_name)
  /\ (forall df1,
        (if b3 then handle_outliers o df column_name else Ok df) = Ok df1 ->
        has_dtype d df1 column_name)
  /\ (forall df1,
        (if b4 then standardize_data sqrt df column_name else Ok df)
        = Ok df1 -> has_dtype d df1 column_name).
Proof.
  intros Hd. repeat split; intros df1 H.
  - destruct b1; [eapply handle_missing_values_dtype; eassumption|].
    apply Ok_eq in H. subst df1. exact Hd.
  - destruct b2; [eapply remove_duplicates_dtype; eassumption|].
    apply Ok_eq in H. subst df1. exact Hd.
  - destruct b3; [eapply handle_outliers_dtype; eassumption|].
    apply Ok_eq in H. subst df1. exact Hd.
  - destruct b4; [eapply standardize_data_dtype; eassumption|].
    apply Ok_eq in H. subst df1. exact Hd.
Qed.

Lemma stages_numeric (b1 b2 b3 b4 b5 : bool) (m : missing_method)
    (o : outlier_method) (e : encoding_method) (df : DataFrame)
    (column_name : string) :
  has_dtype numeric df column_name ->
  staged b1 b2 b3 b4 b5 m o e df column_name
  = staged b1 b2 b3 b4 false m o e df column_name.
Proof.
  intros D0. unfold stages.
  apply bind_congr; intros _ _.
  apply bind_congr; intros df1 H1.
  pose proof (proj1 (stages_keep_dtype _ b1 b2 b3 b4 m o _ _ D0) _ H1) as D1.
  apply bind_congr; intros df2 H2.
  pose proof (proj1 (proj2 (stages_keep_dtype _ b1 b2 b3 b4 m o _ _ D1))
                _ H2) as D2.
  apply bind_congr; intros df3 H3.
  pose proof (proj1 (proj2 (proj2 (stages_keep_dtype _ b1 b2 b3 b4 m o _ _
                                     D2))) _ H3) as D3.
  apply bind_congr; intros df4 H4.
  pose proof (proj2 (proj2 (proj2 (stages_keep_dtype _ b1 b2 b3 b4 m o _ _
                                     D3))) _ H4) as D4.
  destruct b5; [|reflexivity].
  rewrite (encode_categorical_data_numeric e _ _ D4). reflexivity.
Qed.

Lemma stages_object (b1 b2 b3 b4 b5 : bool) (m : missing_method)
    (o : outlier_method) (e : encoding_method) (df : DataFrame)
    (column_name : string) :
  has_dtype object df column_name ->
  staged b1 b2 b3 b4 b5 m o e df column_name
  = staged b1 b2 false false b5 m o e df column_name.
Proof.
  intros D0. unfold stages.
  apply bind_congr; intros _ _.
  apply bind_congr; intros df1 H1.
  pose proof (proj1 (stages_keep_dtype _ b1 b2 b3 b4 m o _ _ D0) _ H1) as D1.
  apply bind_congr; intros df2 H2.
  pose proof (proj1 (proj2 (stages_keep_dtype _ b1 b2 b3 b4 m o _ _ D1))
                _ H2) as D2.
  assert (E3 : (if b3 then handle_outliers o df2 column_name else Ok df2)
               = Ok df2).
  { destruct b3; [apply handle_outliers_object, D2 | reflexivity]. }
  assert (E4 : (if b4 then standardize_data sqrt df2 column_name else Ok df2)
               = Ok df2).
  { destruct b4; [apply standardize_data_object, D2 | reflexivity]. }
  rewrite E3. cbn [bind]. rewrite E4. reflexivity.
Qed.

(** C3 (amended): the transformer checks the dtype of the column again
    before Handle Outliers, Standardize Data and Encode Categorical Data,
    and skips the one selected for a column of the other dtype: whatever
    is selected, the outcome is that of the selection without the methods
    that [get_cleaning_methods] does not list for the dtype of the
    column. *)
Theorem wrong_dtype_methods_skipped (df : DataFrame) (column_name : string)
    (column_index : nat) (s : Series) (options : list string)
    (m : missing_method) (o : outlier_method) (e : encoding_method) :
  get_column (columns df) column_name = Some s ->
  clean (choose options m o e) df column_name column_index
  = clean (choose (offered (dtype_of s) options) m o e)
          df column_name column_index.
Proof.
  intros Hs. rewrite !clean_column_stages. unfold offered.
  rewrite !selected_filter.
  assert (Hd : has_dtype (dtype_of s) df column_name)
    by (exists s; split; [exact Hs | reflexivity]).
  destruct s as [xs|xs]; cbn [dtype_of] in *.
  - change (selected "Handle Missing Values" (get_cleaning_methods numeric))
      with true.
    change (selected "Remove Duplicates" (get_cleaning_methods numeric))
      with true.
    change (selected "Handle Outliers" (get_cleaning_methods numeric))
      with true.
    change (selected "Standardize Data" (get_cleaning_methods numeric))
      with true.
    change (selected "Encode Categorical Data" (get_cleaning_methods numeric))
      with false.
    rewrite !andb_true_r, andb_false_r. apply stages_numeric, Hd.
  - change (selected "Handle Missing Values" (get_cleaning_methods object))
      with true.
    change (selected "Remove Duplicates" (get_cleaning_methods object))
      with true.
    change (selected "Handle Outliers" (get_cleaning_methods object))
      with false.
    change (selected "Standardize Data" (get_cleaning_methods object))
      with false.
    change (selected "Encode Categorical Data" (get_cleaning_methods object))
      with true.
    rewrite !andb_true_r, !andb_false_r. apply stages_object, Hd.
Qed.
End Guards.

Lemma detect_issues_omits_clean_column_witness :
  get_column (columns people) "age"
  = Some (NumSeries (numbers [21; 35; 50; 42; 28]%Z))
  /\ dict_get (detect_issues people) "age" = None.
Proof.
  split; [reflexivity|].
  apply (detect_issues_omits_clean_column people "age"
           (NumSeries (numbers [21; 35; 50; 42; 28]%Z)));
    [reflexivity | reflexivity | reflexivity|].
  intros xs H. injection H as <-. reflexivity.
Defined.

Lemma wrong_dtype_methods_skipped_witness :
  get_column (columns people) "city" = Some city
  /\ sample_clean_column
       (choose ["Handle Outliers"; "Remove Duplicates"; "Standardize Data"]
               Drop CapOutliers LabelEncoding) people "city" 2
     = sample_clean_column
         (choose (offered (dtype_of city)
                    ["Handle Outliers"; "Remove Duplicates"; "Standardize Data"])
                 Drop CapOutliers LabelEncoding) people "city" 2.
Proof.
  split; [reflexivity|].
  apply (wrong_dtype_methods_skipped sample_sqrt sample_get_dummies
           sample_fit_transform people "city" 2 city).
  reflexivity.
Defined.

(** C3 as stated fails: Handle Outliers and Standardize Data selected for
    the text column, and Encode Categorical Data with one-hot encoding
    selected for a numeric column, return the table as it was; the column
    "age" is still there, which [sample_get_dummies] would have dropped. *)
Lemma selected_methods_not_performed :
  sample_clean_column (choose ["Handle Outliers"; "Standardize Data"]
                              Drop RemoveOutliers OneHotEncoding)
                      people "city" 2
  = Ok people
  /\ sample_clean_column (choose ["Encode Categorical Data"]
                                Drop RemoveOutliers OneHotEncoding)
                        people "age" 0
     = Ok people
  /\ get_column (columns people) "age"
     = Some (NumSeries (numbers [21; 35; 50; 42; 28]%Z))
  /\ get_column (columns (sample_get_dummies people "age")) "age" = None.
Proof. repeat split. Qed.





(** ** What a run of clean_column can change *)

Lemma bind_Ok_inv {A B : Type} (r : result A) (k : A -> result B) (b : B) :
  bind r k = Ok b -> exists a, r = Ok a /\ k a = Ok b.
Proof. destruct r as [a|x]; simpl; [eauto | discriminate]. Qed.

Lemma selected_In (name : string) (options : list string) :
  selected name options = true <-> In name options.
Proof.
  unfold selected. rewrite existsb_exists. split.
  - intros [x [Hx E]]. apply String.eqb_eq in E. subst x. exact Hx.
  - intros H. exists name. split; [exact H | apply String.eqb_refl].
Qed.

Lemma not_selected (name : string) (options : list string) :
  ~ In name options -> selected name options = false.
Proof.
  intros H. destruct (selected name options) eqn:E; [|reflexivity].
  apply selected_In in E. contradiction.
Qed.

Lemma set_column_names (cols : list (string * Series)) (name : string)
    (s s' : Series) :
  get_column cols name = Some s ->
  map fst (set_column cols name s') = map fst cols.
Proof.
  induction cols as [|[n t] r IH]; simpl; [discriminate|].
  destruct (String.eqb n name); simpl; [reflexivity|].
  intros H. rewrite (IH H). reflexivity.
Qed.

Lemma get_column_set_other (cols : list (string * Series)) (name other : string)
    (s' : Series) :
  String.eqb other name = false ->
  get_column (set_column cols name s') other = get_column cols other.
Proof.
  intros Hne. induction cols as [|[n t] r IH]; simpl.
  - rewrite String.eqb_sym, Hne. reflexivity.
  - destruct (String.eqb n name) eqn:E; simpl.
    + apply String.eqb_eq in E. subst n.
      rewrite String.eqb_sym, Hne. reflexivity.
    + rewrite IH. reflexivity.
Qed.

Lemma mask_filter_le {B : Type} (m : list bool) (xs : list B) :
  length (mask_filter m xs) <= length xs.
Proof.
  revert xs; induction m as [|b m IH]; intros [|x xs]; simpl; try lia.
  specialize (IH xs). destruct b; simpl; lia.
Qed.

(** A mask selects the same number of rows from two lists of one length. *)
Lemma mask_filter_same_length {B C : Type} (m : list bool) (xs : list B)
    (ys : list C) :
  length xs = length ys ->
  length (mask_filter m xs) = length (mask_filter m ys).
Proof.
  revert xs ys; induction m as [|b m IH]; intros [|x xs] [|y ys] H;
    simpl in *; try discriminate; try reflexivity.
  injection H as H. destruct b; simpl; rewrite (IH xs ys H); reflexivity.
Qed.

Lemma well_formed_getitem_rows (df : DataFrame) (m : list bool) :
  well_formed df = true -> well_formed (getitem_rows df m) = true.
Proof.
  unfold well_formed. rewrite !forallb_forall. intros H c Hc.
  unfold getitem_rows in Hc. simpl in Hc. apply in_map_iff in Hc.
  destruct Hc as [[n t] [<- Hin]]. specialize (H _ Hin). simpl in *.
  apply Nat.eqb_eq in H. apply Nat.eqb_eq.
  rewrite shape0_getitem_rows. unfold shape0 in H.
  destruct t as [xs|xs]; simpl in *; apply mask_filter_same_length; exact H.
Qed.

Lemma well_formed_set_column (cols : list (string * Series)) (n : nat)
    (name : string) (s s' : Series) :
  forallb (fun c => series_len (snd c) =? n) cols = true ->
  get_column cols name = Some s ->
  series_len s' = series_len s ->
  forallb (fun c => series_len (snd c) =? n) (set_column cols name s') = true.
Proof.
  intros Hw Hs Hl. induction cols as [|[k t] r IH]; simpl in *; [discriminate|].
  apply andb_true_iff in Hw. destruct Hw as [Ht Hr].
  destruct (String.eqb k name); simpl.
  - injection Hs as <-. rewrite Hl, Ht. exact Hr.
  - rewrite Ht. exact (IH Hr Hs).
Qed.

Section Reach.
Variables (rows : bool) (column_name : string) (df : DataFrame).

Lemma reach_names (df' : DataFrame) :
  reach rows column_name df df' ->
  map fst (columns df') = map fst (columns df).
Proof.
  induction 1 as [|df' s s' _ IH Hs _|df' m _ _ IH]; simpl.
  - reflexivity.
  - rewrite (set_column_names _ _ _ s' Hs). exact IH.
  - rewrite map_map. simpl. exact IH.
Qed.

Lemma reach_well_formed (df' : DataFrame) :
  reach rows column_name df df' ->
  well_formed df = true -> well_formed df' = true.
Proof.
  induction 1 as [|df' s s' _ IH Hs Hl|df' m _ _ IH]; intros Hw.
  - exact Hw.
  - unfold well_formed, setitem. simpl.
    apply (well_formed_set_column _ _ _ s s'); [apply IH, Hw | exact Hs | exact Hl].
  - apply well_formed_getitem_rows, IH, Hw.
Qed.

Lemma reach_shape0 (df' : DataFrame) :
  reach rows column_name df df' -> shape0 df' <= shape0 df.
Proof.
  induction 1 as [|df' s s' _ IH _ _|df' m _ _ IH].
  - lia.
  - exact IH.
  - rewrite shape0_getitem_rows. pose proof (mask_filter_le m (index df')).
    unfold shape0 in *. lia.
Qed.

Lemma reach_column (df' : DataFrame) (d : dtype) :
  reach rows column_name df df' ->
  has_dtype d df column_name ->
  exists s, get_column (columns df') column_name = Some s.
Proof.
  induction 1 as [|df' s s' _ IH _ _|df' m _ _ IH]; intros Hd.
  - destruct Hd as [s [Hs _]]. eauto.
  - exists s'. apply get_column_set.
  - destruct (IH Hd) as [s Hs]. exists (series_filter m s).
    rewrite getitem_rows_column, Hs. reflexivity.
Qed.
End Reach.

(** Without row selections the index and the other columns stay. *)
Lemma reach_values (column_name : string) (df df' : DataFrame) :
  reach false column_name df df' ->
  index df' = index df
  /\ forall other, String.eqb other column_name = false ->
       get_column (columns df') other = get_column (columns df) other.
Proof.
  induction 1 as [|df' s s' _ [IH1 IH2] _ _|df' m Hr _ _];
    [split; reflexivity | | discriminate].
  split; [exact IH1|]. intros other Hne. simpl.
  rewrite get_column_set_other by exact Hne. apply IH2, Hne.
Qed.

Lemma getitem_Ok (df : DataFrame) (name : string) (s : Series) :
  getitem df name = Ok s -> get_column (columns df) name = Some s.
Proof.
  unfold getitem. destruct (get_column (columns df) name); [|discriminate].
  intros H. apply Ok_eq in H. subst. reflexivity.
Qed.

Lemma getitem_None (df : DataFrame) (name : string) :
  get_column (columns df) name = None -> getitem df name = Raise KeyError.
Proof. unfold getitem. intros ->. reflexivity. Qed.

Lemma clip_length (lower upper : option Q) (xs : list (option Q)) :
  length (clip lower upper xs) = length xs.
Proof. apply length_map. Qed.

Section Moves.
Variables (rows : bool) (column_name : string) (df0 df df' : DataFrame).
Hypothesis Hreach : reach rows column_name df0 df.

Lemma handle_missing_values_reach (m : missing_method) :
  rows = true \/ m <> Drop ->
  handle_missing_values m df column_name = Ok df' ->
  reach rows column_name df0 df'.
Proof.
  intros Hm H. unfold handle_missing_values in H.
  apply bind_Ok_inv in H. destruct H as [s [Hs H]]. apply getitem_Ok in Hs.
  destruct s as [xs|xs]; [|apply Ok_eq in H; subst df'; exact Hreach].
  destruct m.
  - apply Ok_eq in H. subst df'.
    apply (reach_set _ _ _ _ (NumSeries xs)); [exact Hreach | exact Hs|].
    apply fillna_length.
  - apply Ok_eq in H. subst df'.
    apply (reach_set _ _ _ _ (NumSeries xs)); [exact Hreach | exact Hs|].
    apply fillna_length.
  - apply bind_Ok_inv in H. destruct H as [v [_ H]].
    apply Ok_eq in H. subst df'.
    apply (reach_set _ _ _ _ (NumSeries xs)); [exact Hreach | exact Hs|].
    apply fillna_length.
  - apply Ok_eq in H. subst df'.
    destruct Hm as [Hr|Hm]; [|congruence].
    apply reach_rows; assumption.
Qed.

Lemma remove_duplicates_reach :
  rows = true ->
  remove_duplicates df column_name = Ok df' ->
  reach rows column_name df0 df'.
Proof.
  intros Hr H. unfold remove_duplicates in H.
  apply bind_Ok_inv in H. destruct H as [s [_ H]].
  apply Ok_eq in H. subst df'. apply reach_rows; assumption.
Qed.

Lemma handle_outliers_reach (o : outlier_method) :
  rows = true \/ o = CapOutliers ->
  handle_outliers o df column_name = Ok df' ->
  reach rows column_name df0 df'.
Proof.
  intros Ho H. unfold handle_outliers in H.
  apply bind_Ok_inv in H. destruct H as [s [Hs H]]. apply getitem_Ok in Hs.
  destruct s as [xs|xs]; [|apply Ok_eq in H; subst df'; exact Hreach].
  destruct (iqr_bounds xs) as [lower upper], o; apply Ok_eq in H; subst df'.
  - destruct Ho as [Hr|Ho]; [|discriminate]. apply reach_rows; assumption.
  - apply (reach_set _ _ _ _ (NumSeries xs)); [exact Hreach | exact Hs|].
    apply clip_length.
Qed.

Lemma standardize_data_reach (sqrt : Q -> Q) :
  standardize_data sqrt df column_name = Ok df' ->
  reach rows column_name df0 df'.
Proof.
  intros H. unfold standardize_data in H.
  apply bind_Ok_inv in H. destruct H as [s [Hs H]]. apply getitem_Ok in Hs.
  destruct s as [xs|xs]; apply Ok_eq in H; subst df'; [|exact Hreach].
  apply (reach_set _ _ _ _ (NumSeries xs)); [exact Hreach | exact Hs|].
  apply length_map.
Qed.
End Moves.

Section Shape.
Variable sqrt : Q -> Q.
Variable get_dummies : DataFrame -> string -> DataFrame.
Variable fit_transform : list (option string) -> result (list Z).

Local Abbreviation clean := (clean_column sqrt get_dummies fit_transform).
Local Abbreviation staged := (stages sqrt get_dummies fit_transform).

Lemma clean_column_staged (st : nat -> widgets) (df : DataFrame)
    (column_name : string) (column_index : nat) :
  clean st df column_name column_index
  = staged (selected "Handle Missing Values" (multiselect (st column_index)))
           (selected "Remove Duplicates" (multiselect (st column_index)))
           (selected "Handle Outliers" (multiselect (st column_index)))
           (selected "Standardize Data" (multiselect (st column_index)))
           (selected "Encode Categorical Data" (multiselect (st column_index)))
           (radio_missing (st column_index))
           (radio_outliers (st column_index))
           (selectbox_encoding (st column_index))
           df column_name.
Proof. reflexivity. Qed.

(** Without the encoding step a run is a sequence of assignments to the
    column and of row selections; without Remove Duplicates, Drop and
    Remove Outliers it is a sequence of assignments only. *)
Lemma stages_reach (rows b1 b2 b3 b4 : bool) (m : missing_method)
    (o : outlier_method) (e : encoding_method) (df df' : DataFrame)
    (column_name : string) :
  rows = true
  \/ (b2 = false /\ (b1 = false \/ m <> Drop)
      /\ (b3 = false \/ o = CapOutliers)) ->
  staged b1 b2 b3 b4 false m o e df column_name = Ok df' ->
  reach rows column_name df df'.
Proof.
  intros Hr H. unfold stages in H.
  apply bind_Ok_inv in H. destruct H as [_ [_ H]].
  apply bind_Ok_inv in H. destruct H as [df1 [H1 H]].
  apply bind_Ok_inv in H. destruct H as [df2 [H2 H]].
  apply bind_Ok_inv in H. destruct H as [df3 [H3 H]].
  apply bind_Ok_inv in H. destruct H as [df4 [H4 H]].
  cbn [bind] in H. apply Ok_eq in H. subst df'.
  assert (R1 : reach rows column_name df df1).
  { destruct b1; [|apply Ok_eq in H1; subst df1; apply reach_refl].
    eapply handle_missing_values_reach; [apply reach_refl | | exact H1].
    destruct Hr as [Hr|[_ [[Hb|Hm] _]]]; auto. discriminate. }
  assert (R2 : reach rows column_name df df2).
  { destruct b2; [|apply Ok_eq in H2; subst df2; exact R1].
    eapply remove_duplicates_reach; [exact R1 | | exact H2].
    destruct Hr as [Hr|[Hb _]]; [exact Hr | discriminate]. }
  assert (R3 : reach rows column_name df df3).
  { destruct b3; [|apply Ok_eq in H3; subst df3; exact R2].
    eapply handle_outliers_reach; [exact R2 | | exact H3].
    destruct Hr as [Hr|[_ [_ [Hb|Ho]]]]; auto. discriminate. }
  destruct b4; [|apply Ok_eq in H4; subst df4; exact R3].
  eapply standardize_data_reach; [exact R3 | exact H4].
Qed.

(** X1: [clean_column] on a name that is not a column of the table raises
    KeyError, whatever the widgets hold. *)
Theorem clean_column_missing_column (st : nat -> widgets) (df : DataFrame)
    (column_name : string) (column_index : nat) :
  get_column (columns df) column_name = None ->
  clean st df column_name column_index = Raise KeyError.
Proof.
  intros H. unfold clean_column. rewrite (getitem_None _ _ H). reflexivity.
Qed.

(** X2: when none of the five method names is among the selected options,
    [clean_column] returns the table as it was, whatever the sub-method
    widgets hold and whatever else the options contain. *)
Theorem clean_column_nothing_selected (st : nat -> widgets) (df : DataFrame)
    (column_name : string) (column_index : nat) (s : Series) :
  get_column (columns df) column_name = Some s ->
  Forall (fun name => ~ In name (multiselect (st column_index)))
         ["Handle Missing Values"; "Remove Duplicates"; "Handle Outliers";
          "Standardize Data"; "Encode Categorical Data"] ->
  clean st df column_name column_index = Ok df.
Proof.
  intros Hs Hn. rewrite clean_column_staged.
  assert (F : forall name,
             In name ["Handle Missing Values"; "Remove Duplicates";
                      "Handle Outliers"; "Standardize Data";
                      "Encode Categorical Data"] ->
             selected name (multiselect (st column_index)) = false).
  { intros name Hin. rewrite Forall_forall in Hn.
    apply not_selected, Hn, Hin. }
  rewrite !F by (simpl; auto 6).
  unfold stages. rewrite (getitem_Some _ _ _ Hs). reflexivity.
Qed.

(** X3: the outcome of [clean_column] depends on which options are
    selected only, not on the order in which they were selected nor on
    repetitions: the methods run in the order of the source. *)
Theorem clean_column_selection_order (options options' : list string)
    (m : missing_method) (o : outlier_method) (e : encoding_method)
    (df : DataFrame) (column_name : string) (column_index : nat) :
  (forall name, In name options <-> In name options') ->
  clean (choose options m o e) df column_name column_index
  = clean (choose options' m o e) df column_name column_index.
Proof.
  intros H. rewrite !clean_column_stages.
  assert (F : forall name, selected name options = selected name options').
  { intros name. destruct (selected name options') eqn:E.
    - apply selected_In. apply H. apply selected_In. exact E.
    - destruct (selected name options) eqn:E'; [|reflexivity].
      apply selected_In in E'. apply H in E'. apply selected_In in E'.
      congruence. }
  rewrite !F. reflexivity.
Qed.

(** X4: when Encode Categorical Data is not selected, a run of
    [clean_column] that returns a table returns one with the same column
    names in the same order. *)
Theorem clean_column_keeps_columns (st : nat -> widgets) (df df' : DataFrame)
    (column_name : string) (column_index : nat) :
  ~ In "Encode Categorical Data" (multiselect (st column_index)) ->
  clean st df column_name column_index = Ok df' ->
  map fst (columns df') = map fst (columns df).
Proof.
  intros He H. rewrite clean_column_staged in H.
  rewrite (not_selected _ _ He) in H.
  apply (reach_names true column_name).
  eapply stages_reach; [left; reflexivity | exact H].
Qed.

(** X5: when Encode Categorical Data is not selected, a run of
    [clean_column] on a table whose columns all have one entry per row
    returns such a table again, and never one with more rows. *)
Theorem clean_column_keeps_table_invariant (st : nat -> widgets)
    (df df' : DataFrame) (column_name : string) (column_index : nat) :
  ~ In "Encode Categorical Data" (multiselect (st column_index)) ->
  well_formed df = true ->
  clean st df column_name column_index = Ok df' ->
  well_formed df' = true /\ shape0 df' <= shape0 df.
Proof.
  intros He Hw H. rewrite clean_column_staged in H.
  rewrite (not_selected _ _ He) in H.
  assert (R : reach true column_name df df')
    by (eapply stages_reach; [left; reflexivity | exact H]).
  split; [exact (reach_well_formed _ _ _ _ R Hw) | exact (reach_shape0 _ _ _ _ R)].
Qed.

(** X6: when the selection holds neither Remove Duplicates nor Encode
    Categorical Data, Handle Missing Values is not used with Drop and
    Handle Outliers is not used with Remove, a run of [clean_column] keeps
    every row and leaves every other column as it was. *)
Theorem clean_column_keeps_other_columns (st : nat -> widgets)
    (df df' : DataFrame) (column_name : string) (column_index : nat) :
  ~ In "Encode Categorical Data" (multiselect (st column_index)) ->
  ~ In "Remove Duplicates" (multiselect (st column_index)) ->
  (~ In "Handle Missing Values" (multiselect (st column_index))
   \/ radio_missing (st column_index) <> Drop) ->
  (~ In "Handle Outliers" (multiselect (st column_index))
   \/ radio_outliers (st column_index) = CapOutliers) ->
  clean st df column_name column_index = Ok df' ->
  index df' = index df
  /\ forall other, other <> column_name ->
       get_column (columns df') other = get_column (columns df) other.
Proof.
  intros He Hd Hm Ho H. rewrite clean_column_staged in H.
  pose proof (fun name => not_selected name (multiselect (st column_index)))
    as N.
  rewrite (N _ He), (N _ Hd) in H.
  assert (R : reach false column_name df df').
  { eapply stages_reach; [right | exact H].
    split; [reflexivity|]. split.
    - destruct Hm as [Hm|Hm]; [left; apply N, Hm | right; exact Hm].
    - destruct Ho as [Ho|Ho]; [left; apply N, Ho | right; exact Ho]. }
  destruct (reach_values _ _ _ R) as [R1 R2].
  split; [exact R1|]. intros other Hne. apply R2.
  apply String.eqb_neq. exact Hne.
Qed.
End Shape.

(** ** Imputation *)

Lemma fillna_keeps {A : Type} (value : option A) (xs : list (option A)) :
  Forall2 (fun x y => forall v, x = Some v -> y = Some v)
          xs (fillna value xs).
Proof.
  unfold fillna. induction xs as [|[w|] r IH]; simpl; constructor;
    try exact IH; [intros v H; exact H | discriminate].
Qed.






Lemma sum_true_all_false (m : list bool) :
  Forall (fun b => b = false) m -> sum_true m = 0.
Proof.
  unfold sum_true. induction 1 as [|b m Hb _ IH]; simpl; [reflexivity|].
  subst b. exact IH.
Qed.



Lemma series_no_duplicates_left (s : Series) :
  duplicate_count (series_filter (map negb (series_duplicated s)) s) = 0.
Proof.
  unfold duplicate_count. apply sum_true_all_false.
  destruct s as [xs|xs]; simpl.
  - apply (keep_first_no_duplicates Qeq_bool Qeq_bool_trans).
  - apply (keep_first_no_duplicates String.eqb string_eqb_trans).
Qed.





Lemma std_few_values (sqrt : Q -> Q) (xs : list (option Q)) :
  length (dropna_values xs) < 2 -> std sqrt xs = None.
Proof.
  unfold std. destruct (dropna_values xs) as [|v [|w r]]; simpl; try lia;
    intros _; [reflexivity|]. destruct (mean xs); reflexivity.
Qed.

Lemma nan_div_nan (a : option Q) : nan_div a None = None.
Proof. destruct a; reflexivity. Qed.

Section Methods.
Variable sqrt : Q -> Q.
Variable get_dummies : DataFrame -> string -> DataFrame.
Variable fit_transform : list (option string) -> result (list Z).

Local Abbreviation clean := (clean_column sqrt get_dummies fit_transform).

Lemma clean_column_standardize_only (m : missing_method) (o : outlier_method)
    (e : encoding_method) (df : DataFrame) (c : string) (i : nat) :
  clean (choose ["Standardize Data"] m o e) df c i = standardize_data sqrt df c.
Proof.
  unfold clean_column, standardize_data, choose; simpl.
  destruct (getitem df c) as [s|x]; simpl; [|reflexivity].
  apply bind_Ok_r.
Qed.

(** X7: Handle Missing Values with the mean, the median or the mode on a
    numeric column changes no entry that is present: when it returns a
    table, every number of the column is where it was. *)
Theorem impute_keeps_present_values (df df' : DataFrame) (column_name : string)
    (column_index : nat) (xs : list (option Q)) (m : missing_method)
    (o : outlier_method) (e : encoding_method) :
  get_column (columns df) column_name = Some (NumSeries xs) ->
  m <> Drop ->
  clean (choose ["Handle Missing Values"] m o e) df column_name column_index
  = Ok df' ->
  exists ys,
    get_column (columns df') column_name = Some (NumSeries ys)
    /\ Forall2 (fun x y => forall v, x = Some v -> y = Some v) xs ys.
Proof.
  intros Hs Hm H. rewrite clean_column_missing_only in H.
  unfold handle_missing_values in H. rewrite (getitem_Some _ _ _ Hs) in H.
  cbn [bind] in H.
  assert (G : forall value,
             Ok (setitem df column_name (NumSeries (fillna value xs))) = Ok df' ->
             exists ys,
               get_column (columns df') column_name = Some (NumSeries ys)
               /\ Forall2 (fun x y => forall v, x = Some v -> y = Some v) xs ys).
  { intros value E. apply Ok_eq in E. subst df'. exists (fillna value xs).
    split; [apply get_column_set | apply fillna_keeps]. }
  destruct m; [apply (G _ H) | apply (G _ H) | | congruence].
  apply bind_Ok_inv in H. destruct H as [v [_ H]]. apply (G _ H).
Qed.


(** X9: in the table that Remove Duplicates returns, the column has no
    duplicate left: the count that [detect_issues] reports as "Duplicate
    values" is zero for it. *)
Theorem remove_duplicates_leaves_none (df : DataFrame) (column_name : string)
    (column_index : nat) (s : Series) (m : missing_method)
    (o : outlier_method) (e : encoding_method) :
  get_column (columns df) column_name = Some s ->
  exists df' s',
    clean (choose ["Remove Duplicates"] m o e) df column_name column_index
    = Ok df'
    /\ get_column (columns df') column_name = Some s'
    /\ duplicate_count s' = 0.
Proof.
  intros Hs. rewrite clean_column_duplicates_only. unfold remove_duplicates.
  rewrite (getitem_Some _ _ _ Hs). cbn [bind].
  eexists. eexists. split; [reflexivity|].
  split; [rewrite getitem_rows_column, Hs; reflexivity|].
  apply series_no_duplicates_left.
Qed.


(** X11: Standardize Data on a numeric column with fewer than two values
    present leaves no value in it: the standard deviation is NaN and every
    entry of the column becomes a missing one. *)
Theorem standardize_few_values (df : DataFrame) (column_name : string)
    (column_index : nat) (xs : list (option Q)) (m : missing_method)
    (o : outlier_method) (e : encoding_method) :
  get_column (columns df) column_name = Some (NumSeries xs) ->
  length (dropna_values xs) < 2 ->
  clean (choose ["Standardize Data"] m o e) df column_name column_index
  = Ok (setitem df column_name (NumSeries (map (fun _ => None) xs))).
Proof.
  intros Hs Hn. rewrite clean_column_standardize_only.
  unfold standardize_data. rewrite (getitem_Some _ _ _ Hs). cbn [bind].
  rewrite (std_few_values sqrt xs Hn). do 3 f_equal.
  apply map_ext. intros x. apply nan_div_nan.
Qed.
End Methods.

(** ** What the detector reports *)

Lemma dict_get_set_same {V : Type} (d : dict V) (k : string) (v : V) :
  dict_get (dict_set d k v) k = Some v.
Proof.
  induction d as [|[k0 v0] r IH]; simpl.
  - rewrite String.eqb_refl. reflexivity.
  - destruct (String.eqb k0 k) eqn:E; simpl; rewrite E; [reflexivity | exact IH].
Qed.

Lemma get_column_names (cols : list (string * Series)) (name : string) :
  In name (map fst cols) <-> get_column cols name <> None.
Proof.
  induction cols as [|[n s] r IH]; simpl; [tauto|].
  destruct (String.eqb n name) eqn:E.
  - apply String.eqb_eq in E. split; [discriminate | auto].
  - apply String.eqb_neq in E. rewrite <- IH. tauto.
Qed.

Section Report.
Variables (df : DataFrame) (column : string).

Local Abbreviation visit :=
  (fun (issues : dict (list string)) (c : string) =>
     match get_column (columns df) c with
     | Some s =>
         match column_issues df s with
         | [] => issues
         | i :: r => dict_set issues c (i :: r)
         end
     | None => issues
     end).

Lemma visit_other (issues : dict (list string)) (c : string) :
  String.eqb c column = false ->
  dict_get (visit issues c) column = dict_get issues column.
Proof.
  intros E. cbv beta.
  destruct (get_column (columns df) c) as [s|]; [|reflexivity].
  destruct (column_issues df s); [reflexivity|].
  apply dict_get_set_other, E.
Qed.

Lemma visit_same (issues : dict (list string)) :
  dict_get issues column = None \/ dict_get issues column = reported df column ->
  dict_get (visit issues column) column = reported df column.
Proof.
  unfold reported. cbv beta.
  destruct (get_column (columns df) column) as [s|]; [|intros [H|H]; exact H].
  destruct (column_issues df s); [intros [H|H]; exact H|].
  intros _. apply dict_get_set_same.
Qed.

Lemma visits_keep (names : list string) (issues : dict (list string)) :
  dict_get issues column = reported df column ->
  dict_get (fold_left visit names issues) column = reported df column.
Proof.
  revert issues; induction names as [|n names IH]; intros issues H; simpl;
    [exact H|].
  apply IH. destruct (String.eqb n column) eqn:E.
  - apply String.eqb_eq in E. subst n. apply visit_same. right. exact H.
  - rewrite visit_other by exact E. exact H.
Qed.

Lemma visits_reach (names : list string) (issues : dict (list string)) :
  In column names -> dict_get issues column = None ->
  dict_get (fold_left visit names issues) column = reported df column.
Proof.
  revert issues; induction names as [|n names IH]; intros issues Hin H;
    simpl; [destruct Hin|].
  destruct (String.eqb n column) eqn:E.
  - apply String.eqb_eq in E. subst n. apply visits_keep.
    apply visit_same. left. exact H.
  - apply IH.
    + destruct Hin as [Hn|Hin]; [|exact Hin].
      subst n. rewrite String.eqb_refl in E. discriminate.
    + rewrite visit_other by exact E. exact H.
Qed.

Lemma detect_issues_reported :
  dict_get (detect_issues df) column = reported df column.
Proof.
  destruct (get_column (columns df) column) as [s|] eqn:Es.
  - apply visits_reach; [|reflexivity].
    apply get_column_names. rewrite Es. discriminate.
  - unfold reported. rewrite Es. apply detect_issues_absent.
    intros s Hs. rewrite Es in Hs. discriminate.
Qed.
End Report.

(** X12: a key of the mapping that [detect_issues] returns is the name of
    a column that has an issue, and its value is the list of the messages
    for that column, which is not empty; a name that is no column, or a
    column without an issue, is no key. *)
Theorem detect_issues_lookup (df : DataFrame) (column : string) :
  dict_get (detect_issues df) column
  = match get_column (columns df) column with
    | Some s =>
        match column_issues df s with
        | [] => None
        | i :: r => Some (i :: r)
        end
    | None => None
    end.
Proof. apply detect_issues_reported. Qed.

(** X13: a column with missing entries has an entry in the mapping that
    [detect_issues] returns, and the first message of the entry is
    "Missing values: " followed by their number. *)
Theorem missing_values_reported_first (df : DataFrame) (column : string)
    (s : Series) :
  get_column (columns df) column = Some s ->
  0 < missing_count s ->
  exists rest,
    dict_get (detect_issues df) column
    = Some (("Missing values: " ++ str (missing_count s))%string :: rest).
Proof.
  intros Hs Hm. rewrite detect_issues_reported. unfold reported.
  rewrite Hs. unfold column_issues. apply Nat.ltb_lt in Hm. rewrite Hm.
  destruct (0 <? duplicate_count s); destruct s as [xs|xs];
    try destruct (0 <? outlier_count df xs); simpl; eauto.
Qed.

(** ** What the loader returns *)

Section Attempts.
Variable stream : Type.
Variable read_csv : stream -> string -> result DataFrame * stream.

Lemma try_encodings_app (pre post : list string) (uploaded_file : stream) :
  undecodable read_csv pre uploaded_file ->
  try_encodings read_csv (pre ++ post) uploaded_file
  = try_encodings read_csv post (stream_after stream read_csv pre uploaded_file).
Proof.
  revert uploaded_file; induction pre as [|e pre IH]; intros f H; simpl in *;
    [reflexivity|].
  destruct (read_csv f e) as [r f']; simpl in *.
  destruct H as [-> H]. apply IH, H.
Qed.

Lemma try_encodings_None (encs : list string) (uploaded_file : stream) :
  try_encodings read_csv encs uploaded_file = Ok None ->
  undecodable read_csv encs uploaded_file.
Proof.
  revert uploaded_file; induction encs as [|e encs IH]; intros f H; simpl in *;
    [exact I|].
  destruct (read_csv f e) as [[df|x] f']; simpl; [discriminate|].
  destruct x; try discriminate. split; [reflexivity | apply IH, H].
Qed.

Lemma try_encodings_no_decode_error (encs : list string)
    (uploaded_file : stream) :
  try_encodings read_csv encs uploaded_file <> Raise UnicodeDecodeError.
Proof.
  revert uploaded_file; induction encs as [|e encs IH]; intros f; simpl;
    [discriminate|].
  destruct (read_csv f e) as [[df|x] f']; [discriminate|].
  destruct x; try discriminate. apply IH.
Qed.

(** X14: [load_data] never lets a UnicodeDecodeError out: whatever
    [read_csv] does, the call returns a table, returns None, or raises
    another exception. *)
Theorem load_data_no_decode_error (uploaded_file : stream) :
  load_data read_csv uploaded_file <> Raise UnicodeDecodeError.
Proof. apply try_encodings_no_decode_error. Qed.

(** X15: the first attempt of [load_data] that does not end in a
    UnicodeDecodeError decides the call: its table is returned, or its
    exception leaves [load_data], and no later encoding is tried. *)
Theorem load_data_first_outcome (pre post : list string) (encoding : string)
    (uploaded_file : stream) (r : result DataFrame) :
  encodings = pre ++ encoding :: post ->
  undecodable read_csv pre uploaded_file ->
  fst (read_csv (stream_after stream read_csv pre uploaded_file) encoding) = r ->
  r <> Raise UnicodeDecodeError ->
  load_data read_csv uploaded_file
  = match r with
    | Ok df => Ok (Some df)
    | Raise e => Raise e
    end.
Proof.
  intros He Hp Hr Hn. unfold load_data. rewrite He.
  rewrite (try_encodings_app pre _ _ Hp). simpl.
  destruct (read_csv (stream_after stream read_csv pre uploaded_file) encoding)
    as [r' f']. simpl in Hr. subst r'.
  destruct r as [df|x]; [reflexivity|]. destruct x; congruence.
Qed.

(** X16: [load_data] returns None only when each of the four attempts
    ended in a UnicodeDecodeError. *)
Theorem load_data_None_only_undecodable (uploaded_file : stream) :
  load_data read_csv uploaded_file = Ok None ->
  undecodable read_csv encodings uploaded_file.
Proof. apply try_encodings_None. Qed.
End Attempts.

(** ** The loop over the columns *)

Lemma has_some_dtype (df : DataFrame) (column_name : string) :
  In column_name (map fst (columns df)) ->
  exists d, has_dtype d df column_name.
Proof.
  intros H. apply get_column_names in H.
  destruct (get_column (columns df) column_name) as [s|] eqn:E; [|congruence].
  exists (dtype_of s), s. split; [exact E | reflexivity].
Qed.

Lemma handle_missing_values_total (d : dtype) (m : missing_method)
    (df : DataFrame) (column_name : string) :
  has_dtype d df column_name -> m <> ImputeMode ->
  exists df', handle_missing_values m df column_name = Ok df'.
Proof.
  intros Hd Hm. destruct (has_dtype_getitem _ _ _ Hd) as [s [Hs _]].
  unfold handle_missing_values. rewrite Hs. cbn [bind].
  destruct s as [xs|xs]; [|eauto]. destruct m; eauto. congruence.
Qed.

Lemma remove_duplicates_total (d : dtype) (df : DataFrame)
    (column_name : string) :
  has_dtype d df column_name ->
  exists df', remove_duplicates df column_name = Ok df'.
Proof.
  intros Hd. destruct (has_dtype_getitem _ _ _ Hd) as [s [Hs _]].
  unfold remove_duplicates. rewrite Hs. cbn [bind]. eauto.
Qed.

Lemma handle_outliers_total (d : dtype) (o : outlier_method) (df : DataFrame)
    (column_name : string) :
  has_dtype d df column_name ->
  exists df', handle_outliers o df column_name = Ok df'.
Proof.
  intros Hd. destruct (has_dtype_getitem _ _ _ Hd) as [s [Hs _]].
  unfold handle_outliers. rewrite Hs. cbn [bind].
  destruct s as [xs|xs]; [|eauto].
  destruct (iqr_bounds xs) as [lower upper], o; eauto.
Qed.

Section Loop.
Variable sqrt : Q -> Q.
Variable get_dummies : DataFrame -> string -> DataFrame.
Variable fit_transform : list (option string) -> result (list Z).

Local Abbreviation clean := (clean_column sqrt get_dummies fit_transform).
Local Abbreviation staged := (stages sqrt get_dummies fit_transform).
Local Abbreviation clean_from :=
  (clean_columns_from sqrt get_dummies fit_transform).
Local Abbreviation clean_all := (clean_columns sqrt get_dummies fit_transform).

Lemma standardize_data_total (d : dtype) (df : DataFrame)
    (column_name : string) :
  has_dtype d df column_name ->
  exists df', standardize_data sqrt df column_name = Ok df'.
Proof.
  intros Hd. destruct (has_dtype_getitem _ _ _ Hd) as [s [Hs _]].
  unfold standardize_data. rewrite Hs. cbn [bind]. destruct s; eauto.
Qed.

(** Without the encoding step and without the mode, a run on a column of
    the table returns a table. *)
Lemma stages_total (d : dtype) (b1 b2 b3 b4 : bool) (m : missing_method)
    (o : outlier_method) (e : encoding_method) (df : DataFrame)
    (column_name : string) :
  has_dtype d df column_name ->
  b1 = false \/ m <> ImputeMode ->
  exists df', staged b1 b2 b3 b4 false m o e df column_name = Ok df'.
Proof.
  intros D0 Hm. unfold stages.
  destruct (has_dtype_getitem _ _ _ D0) as [s [-> _]]. cbn [bind].
  assert (E1 : exists df1,
             (if b1 then handle_missing_values m df column_name else Ok df)
             = Ok df1).
  { destruct b1; [|eauto].
    destruct Hm as [Hm|Hm]; [discriminate|].
    eapply handle_missing_values_total; eassumption. }
  destruct E1 as [df1 E1]. rewrite E1. cbn [bind].
  pose proof (proj1 (stages_keep_dtype sqrt _ b1 b2 b3 b4 m o _ _ D0) _ E1)
    as D1.
  assert (E2 : exists df2,
             (if b2 then remove_duplicates df1 column_name else Ok df1)
             = Ok df2).
  { destruct b2; [eapply remove_duplicates_total; eassumption | eauto]. }
  destruct E2 as [df2 E2]. rewrite E2. cbn [bind].
  pose proof (proj1 (proj2 (stages_keep_dtype sqrt _ b1 b2 b3 b4 m o _ _ D1))
                _ E2) as D2.
  assert (E3 : exists df3,
             (if b3 then handle_outliers o df2 column_name else Ok df2)
             = Ok df3).
  { destruct b3; [eapply handle_outliers_total; eassumption | eauto]. }
  destruct E3 as [df3 E3]. rewrite E3. cbn [bind].
  pose proof (proj1 (proj2 (proj2 (stages_keep_dtype sqrt _ b1 b2 b3 b4 m o
                                     _ _ D2))) _ E3) as D3.
  assert (E4 : exists df4,
             (if b4 then standardize_data sqrt df3 column_name else Ok df3)
             = Ok df4).
  { destruct b4; [eapply standardize_data_total; eassumption | eauto]. }
  destruct E4 as [df4 E4]. rewrite E4. cbn [bind]. eauto.
Qed.

(** X17: when no method is selected for any column, the loop of [main]
    over the columns returns the table as it was loaded. *)
Theorem clean_columns_nothing_selected (st : nat -> widgets) (df : DataFrame) :
  (forall i,
      Forall (fun name => ~ In name (multiselect (st i)))
             ["Handle Missing Values"; "Remove Duplicates"; "Handle Outliers";
              "Standardize Data"; "Encode Categorical Data"]) ->
  clean_all st df = Ok df.
Proof.
  intros Hn. unfold clean_columns.
  assert (G : forall names i,
             incl names (map fst (columns df)) ->
             clean_from st names i df = Ok df).
  { induction names as [|n names IH]; intros i Hin; simpl; [reflexivity|].
    assert (Hc : In n (map fst (columns df))) by (apply Hin; left; reflexivity).
    apply get_column_names in Hc.
    destruct (get_column (columns df) n) as [s|] eqn:Es; [|congruence].
    pose proof (fun name => not_selected name (multiselect (st i))) as N.
    specialize (Hn i). rewrite Forall_forall in Hn.
    rewrite clean_column_staged, !N by (apply Hn; simpl; auto 6).
    unfold stages. rewrite (getitem_Some _ _ _ Es). cbn [bind].
    apply IH. intros x Hx. apply Hin. right. exact Hx. }
  apply G, incl_refl.
Qed.

(** X18: when Encode Categorical Data is selected for no column, a table
    that the loop of [main] returns has the column names of the loaded
    table in the same order, no more rows than it, and one entry per row
    in every column if the loaded table had. *)
Theorem clean_columns_keeps_table (st : nat -> widgets) (df df' : DataFrame) :
  (forall i, ~ In "Encode Categorical Data" (multiselect (st i))) ->
  clean_all st df = Ok df' ->
  map fst (columns df') = map fst (columns df)
  /\ shape0 df' <= shape0 df
  /\ (well_formed df = true -> well_formed df' = true).
Proof.
  intros He. unfold clean_columns. generalize (map fst (columns df)) at 1.
  generalize 0. intros i names. revert i df.
  induction names as [|n names IH]; intros i df H; simpl in H.
  - apply Ok_eq in H. subst df'. auto.
  - apply bind_Ok_inv in H. destruct H as [df1 [H1 H]].
    rewrite clean_column_staged, (not_selected _ _ (He i)) in H1.
    assert (R : reach true n df df1)
      by (eapply stages_reach; [left; reflexivity | exact H1]).
    destruct (IH _ _ H) as [I1 [I2 I3]].
    split; [rewrite I1; apply (reach_names _ _ _ _ R)|].
    split; [pose proof (reach_shape0 _ _ _ _ R); lia|].
    intros Hw. apply I3. apply (reach_well_formed _ _ _ _ R Hw).
Qed.

(** X19: when, for every column, Encode Categorical Data is not selected
    and Handle Missing Values is not used with the mode, the loop of [main]
    over the columns raises nothing: it returns a table. *)
Theorem clean_columns_succeeds (st : nat -> widgets) (df : DataFrame) :
  (forall i, ~ In "Encode Categorical Data" (multiselect (st i))) ->
  (forall i, ~ In "Handle Missing Values" (multiselect (st i))
             \/ radio_missing (st i) <> ImputeMode) ->
  exists df', clean_all st df = Ok df'.
Proof.
  intros He Hm. unfold clean_columns.
  assert (G : forall names i d,
             incl names (map fst (columns d)) ->
             exists df', clean_from st names i d = Ok df').
  { induction names as [|n names IH]; intros i d Hin; simpl; [eauto|].
    destruct (has_some_dtype d n) as [t Ht]; [apply Hin; left; reflexivity|].
    rewrite clean_column_staged, (not_selected _ _ (He i)).
    destruct (stages_total t
                (selected "Handle Missing Values" (multiselect (st i)))
                (selected "Remove Duplicates" (multiselect (st i)))
                (selected "Handle Outliers" (multiselect (st i)))
                (selected "Standardize Data" (multiselect (st i)))
                (radio_missing (st i)) (radio_outliers (st i))
                (selectbox_encoding (st i)) d n Ht) as [d1 H1].
    { destruct (Hm i) as [H|H]; [left; apply not_selected, H | right; exact H]. }
    rewrite H1. cbn [bind]. apply IH.
    assert (R : reach true n d d1)
      by (eapply stages_reach; [left; reflexivity | exact H1]).
    rewrite (reach_names _ _ _ _ R).
    intros x Hx. apply Hin. right. exact Hx. }
  apply G, incl_refl.
Qed.
End Loop.

(** ** The further properties on the sample inputs *)

Ltac not_in := simpl; intuition discriminate.

Lemma clean_column_missing_column_witness :
  get_column (columns people) "height" = None
  /\ sample_clean_column (choose ["Remove Duplicates"] Drop CapOutliers
                                 LabelEncoding) people "height" 3
     = Raise KeyError.
Proof.
  split; [reflexivity|].
  apply (clean_column_missing_column sample_sqrt sample_get_dummies
           sample_fit_transform).
  reflexivity.
Defined.

Lemma clean_column_nothing_selected_witness :
  sample_clean_column (choose ["Normalize"] Drop RemoveOutliers OneHotEncoding)
                      people "city" 2
  = Ok people.
Proof.
  apply (clean_column_nothing_selected sample_sqrt sample_get_dummies
           sample_fit_transform _ people "city" 2 city);
    [reflexivity | repeat constructor; not_in].
Defined.

Lemma clean_column_selection_order_witness :
  sample_clean_column
    (choose ["Handle Outliers"; "Handle Missing Values"; "Handle Outliers"]
            ImputeMedian CapOutliers LabelEncoding) people "income" 1
  = sample_clean_column
      (choose ["Handle Missing Values"; "Handle Outliers"]
              ImputeMedian CapOutliers LabelEncoding) people "income" 1.
Proof.
  apply (clean_column_selection_order sample_sqrt sample_get_dummies
           sample_fit_transform).
  intros name. simpl. tauto.
Defined.

Lemma clean_column_keeps_columns_witness :
  exists df',
    sample_clean_column
      (choose ["Remove Duplicates"; "Handle Outliers"] Drop RemoveOutliers
              LabelEncoding) people "income" 1
    = Ok df'
    /\ map fst (columns df') = map fst (columns people).
Proof.
  eexists. split; [reflexivity|].
  apply (clean_column_keeps_columns sample_sqrt sample_get_dummies
           sample_fit_transform
           (choose ["Remove Duplicates"; "Handle Outliers"] Drop RemoveOutliers
                   LabelEncoding) people _ "income" 1);
    [not_in | reflexivity].
Defined.

Lemma clean_column_keeps_table_invariant_witness :
  exists df',
    sample_clean_column
      (choose ["Remove Duplicates"; "Handle Outliers"] Drop RemoveOutliers
              LabelEncoding) people "income" 1
    = Ok df'
    /\ well_formed people = true
    /\ well_formed df' = true /\ shape0 df' <= shape0 people.
Proof.
  eexists. split; [reflexivity|]. split; [reflexivity|].
  apply (clean_column_keeps_table_invariant sample_sqrt sample_get_dummies
           sample_fit_transform
           (choose ["Remove Duplicates"; "Handle Outliers"] Drop RemoveOutliers
                   LabelEncoding) people _ "income" 1);
    [not_in | reflexivity | reflexivity].
Defined.

Lemma clean_column_keeps_other_columns_witness :
  exists df',
    sample_clean_column
      (choose ["Handle Missing Values"; "Handle Outliers"; "Standardize Data"]
              ImputeMean CapOutliers LabelEncoding) people "income" 1
    = Ok df'
    /\ index df' = index people
    /\ forall other, other <> "income" ->
         get_column (columns df') other = get_column (columns people) other.
Proof.
  eexists. split; [reflexivity|].
  apply (clean_column_keeps_other_columns sample_sqrt sample_get_dummies
           sample_fit_transform
           (choose ["Handle Missing Values"; "Handle Outliers";
                    "Standardize Data"]
                   ImputeMean CapOutliers LabelEncoding) people _ "income" 1);
    [not_in | not_in | right; discriminate | right; reflexivity | reflexivity].
Defined.

Lemma impute_keeps_present_values_witness :
  exists df',
    sample_clean_column (choose ["Handle Missing Values"] ImputeMode
                                CapOutliers LabelEncoding) people "income" 1
    = Ok df'
    /\ exists ys,
        get_column (columns df') "income" = Some (NumSeries ys)
        /\ Forall2 (fun x y => forall v, x = Some v -> y = Some v)
                   [Some 1%Q; Some 2%Q; NaN; Some 4%Q; NaN] ys.
Proof.
  eexists. split; [reflexivity|].
  apply (impute_keeps_present_values sample_sqrt sample_get_dummies
           sample_fit_transform people _ "income" 1
           [Some 1%Q; Some 2%Q; NaN; Some 4%Q; NaN] ImputeMode CapOutliers
           LabelEncoding);
    [reflexivity | discriminate | reflexivity].
Defined.


Lemma remove_duplicates_leaves_none_witness :
  exists df' s',
    sample_clean_column (choose ["Remove Duplicates"] Drop CapOutliers
                                LabelEncoding) people "city" 2
    = Ok df'
    /\ get_column (columns df') "city" = Some s'
    /\ duplicate_count s' = 0.
Proof.
  apply (remove_duplicates_leaves_none sample_sqrt sample_get_dummies
           sample_fit_transform people "city" 2 city).
  reflexivity.
Defined.


Lemma standardize_few_values_witness :
  sample_clean_column (choose ["Standardize Data"] Drop CapOutliers
                              LabelEncoding) blank "score" 0
  = Ok blank
  /\ sample_clean_column
       (choose ["Standardize Data"] Drop CapOutliers LabelEncoding)
       {| index := [0; 1]; columns := [("score", NumSeries [Some 5%Q; NaN])] |}
       "score" 0
     = Ok blank.
Proof.
  split.
  - apply (standardize_few_values sample_sqrt sample_get_dummies
             sample_fit_transform blank "score" 0 [NaN; NaN]);
      [reflexivity | simpl; lia].
  - apply (standardize_few_values sample_sqrt sample_get_dummies
             sample_fit_transform
             {| index := [0; 1];
                columns := [("score", NumSeries [Some 5%Q; NaN])] |}
             "score" 0 [Some 5%Q; NaN]);
      [reflexivity | simpl; lia].
Defined.

Lemma missing_values_reported_first_witness :
  exists rest,
    dict_get (detect_issues people) "city"
    = Some (("Missing values: " ++ str (missing_count city))%string :: rest).
Proof.
  apply (missing_values_reported_first people "city" city);
    [reflexivity | vm_compute; lia].
Defined.

Lemma load_data_first_outcome_witness :
  undecodable strict_utf8_reader ["utf-8"] [104; 233]
  /\ load_data strict_utf8_reader [104; 233]
     = Ok (Some {| index := []; columns := [] |}).
Proof.
  split; [simpl; repeat split|].
  apply (load_data_first_outcome (list nat) strict_utf8_reader ["utf-8"]
           ["ISO-8859-1"; "cp1252"] "latin1" [104; 233]
           (Ok {| index := []; columns := [] |}));
    [reflexivity | simpl; repeat split | reflexivity | discriminate].
Defined.

Lemma load_data_None_only_undecodable_witness :
  load_data seven_bit_reader [200] = Ok None
  /\ undecodable seven_bit_reader encodings [200].
Proof.
  split; [reflexivity|].
  apply (load_data_None_only_undecodable (list nat) seven_bit_reader).
  reflexivity.
Defined.

Lemma clean_columns_nothing_selected_witness :
  clean_columns sample_sqrt sample_get_dummies sample_fit_transform
                (choose [] Drop CapOutliers LabelEncoding) people
  = Ok people.
Proof.
  apply clean_columns_nothing_selected.
  intros i. repeat constructor; not_in.
Defined.

Lemma clean_columns_keeps_table_witness :
  exists df',
    clean_columns sample_sqrt sample_get_dummies sample_fit_transform
                  (choose ["Remove Duplicates"; "Handle Outliers"]
                          Drop RemoveOutliers LabelEncoding) people
    = Ok df'
    /\ map fst (columns df') = map fst (columns people)
    /\ shape0 df' <= shape0 people
    /\ (well_formed people = true -> well_formed df' = true).
Proof.
  eexists. split; [reflexivity|].
  apply (clean_columns_keeps_table sample_sqrt sample_get_dummies
           sample_fit_transform
           (choose ["Remove Duplicates"; "Handle Outliers"]
                   Drop RemoveOutliers LabelEncoding));
    [intros i; not_in | reflexivity].
Defined.

Lemma clean_columns_succeeds_witness :
  exists df',
    clean_columns sample_sqrt sample_get_dummies sample_fit_transform
                  (choose ["Handle Missing Values"; "Standardize Data"]
                          ImputeMean RemoveOutliers LabelEncoding) people
    = Ok df'.
Proof.
  apply clean_columns_succeeds;
    [intros i; not_in | intros i; right; discriminate].
Defined.
